(** * Agent evaluation tasks, screenshot buffer and test-case builder

    A shallow embedding of the evaluation tasks [webvoyager],
    [onlineMind2Web] and [gaia], of the test-case builder
    [buildOnlineMind2WebTestcases] and of the JavaScript primitives they
    rest on ([Number], truthiness, [||], [String.prototype.includes]).

    Calls that leave the task (page, agent, judge, logger, clock) are
    recorded in a trace and answered by a [World]; exceptions are an
    explicit completion. *)

From Stdlib Require Import String Ascii List ZArith QArith Bool Lia DecimalString.
Import ListNotations.
Local Open Scope string_scope.

(** ** JavaScript primitives *)

Module JS.

(** Strings are JavaScript strings whose code units are all below 256.

    [!!s] for a possibly undefined string: only [undefined] and the
    empty string are falsy. *)
Definition truthy_str (v : option string) : bool :=
  match v with
  | None => false
  | Some s => negb (s =? "")
  end.

(** [a || b] on possibly undefined strings, with a defined right side. *)
Definition or_str (a : option string) (b : string) : string :=
  match a with
  | Some s => if s =? "" then b else s
  | None => b
  end.

(** [s.includes(needle)] *)
Fixpoint includes (s needle : string) : bool :=
  if prefix needle s then true
  else match s with
       | EmptyString => false
       | String _ s' => includes s' needle
       end.

(** [xs.join(sep)] *)
Definition join (sep : string) (xs : list string) : string := String.concat sep xs.

(** A Number value: an IEEE-754 binary64.  A finite value other than
    negative zero is held as the rational it denotes, in lowest terms. *)
Inductive number : Type :=
| NaN
| Infinity (negative : bool)
| NegZero
| Fin (q : Q).

Definition num (z : Z) : number := Fin (inject_Z z).

(** ToBoolean on a Number: [NaN], [+0] and [-0] are falsy. *)
Definition truthy (n : number) : bool :=
  match n with
  | NaN => false
  | NegZero => false
  | Infinity _ => true
  | Fin q => negb (Qnum q =? 0)%Z
  end.

(** [a || b] on Numbers. *)
Definition or_else (a b : number) : number := if truthy a then a else b.

(** Unary minus. *)
Definition negate (n : number) : number :=
  match n with
  | NaN => NaN
  | Infinity s => Infinity (negb s)
  | NegZero => Fin 0
  | Fin q => if (Qnum q =? 0)%Z then NegZero else Fin (Qopp q)
  end.

(** Round the non-negative rational [n / d] ([0 <= n], [0 < d]) to the
    nearest binary64, ties to even. *)
Definition round_binary64 (n d : Z) : number :=
  if (n =? 0)%Z then Fin 0
  else
    let e0 := (Z.log2 n - Z.log2 d)%Z in
    let below :=
      if (0 <=? e0)%Z then (n <? d * 2 ^ e0)%Z
      else (n * 2 ^ (- e0) <? d)%Z in
    let e := if below then (e0 - 1)%Z else e0 in
    if (1024 <=? e)%Z then Infinity false
    else
      let u := Z.max (e - 52) (-1074) in
      let n' := (n * 2 ^ Z.max 0 (- u))%Z in
      let d' := (d * 2 ^ Z.max 0 u)%Z in
      let q := (n' / d')%Z in
      let r := (n' mod d')%Z in
      let up :=
        match (2 * r ?= d')%Z with
        | Gt => true
        | Eq => Z.odd q
        | Lt => false
        end in
      let m := if up then (q + 1)%Z else q in
      if (0 <=? u)%Z then
        if (2 ^ 1024 <=? m * 2 ^ u)%Z then Infinity false
        else Fin (inject_Z (m * 2 ^ u))
      else Fin (Qred (Qmake m (Z.to_pos (2 ^ (- u))))).

(** StrWhiteSpaceChar, on code units below 256. *)
Definition is_space (c : ascii) : bool :=
  let n := nat_of_ascii c in
  ((9 <=? n) && (n <=? 13) || (n =? 32) || (n =? 160))%nat.

Fixpoint trim_start (s : string) : string :=
  match s with
  | String c s' => if is_space c then trim_start s' else s
  | EmptyString => EmptyString
  end.

Fixpoint rev_string (acc s : string) : string :=
  match s with
  | EmptyString => acc
  | String c s' => rev_string (String c acc) s'
  end.

Definition trim (s : string) : string :=
  rev_string "" (trim_start (rev_string "" (trim_start s))).

(** The value of a digit in a radix up to 16. *)
Definition digit_value (radix : Z) (c : ascii) : option Z :=
  let n := Z.of_nat (nat_of_ascii c) in
  let v :=
    if ((48 <=? n) && (n <=? 57))%Z then Some (n - 48)%Z
    else if ((97 <=? n) && (n <=? 102))%Z then Some (n - 87)%Z
    else if ((65 <=? n) && (n <=? 70))%Z then Some (n - 55)%Z
    else None in
  match v with
  | Some d => if (d <? radix)%Z then Some d else None
  | None => None
  end.

(** Read the longest run of digits: its value (continuing [acc]), how
    many digits it has, and what follows. *)
Fixpoint digits (radix : Z) (acc : Z) (count : nat) (s : string)
  : Z * nat * string :=
  match s with
  | String c s' =>
      match digit_value radix c with
      | Some d => digits radix (acc * radix + d)%Z (S count) s'
      | None => (acc, count, s)
      end
  | EmptyString => (acc, count, s)
  end.

(** A non-decimal integer literal body: at least one digit, nothing else. *)
Definition radix_literal (radix : Z) (s : string) : number :=
  match digits radix 0 0 s with
  | (v, S _, EmptyString) => round_binary64 v 1
  | _ => NaN
  end.

(** ExponentPart, if any: [e] or [E], an optional sign, decimal digits. *)
Definition exponent_part (s : string) : option Z :=
  match s with
  | EmptyString => Some 0%Z
  | String c s' =>
      if (c =? "e")%char || (c =? "E")%char then
        let '(neg, body) :=
          match s' with
          | String "+" b => (false, b)
          | String "-" b => (true, b)
          | _ => (false, s')
          end in
        match digits 10 0 0 body with
        | (x, S _, EmptyString) => Some (if neg then (- x)%Z else x)
        | _ => None
        end
      else None
  end.

(** The value [mant * 10 ^ exp10] of a decimal literal. *)
Definition decimal_value (mant exp10 : Z) : number :=
  if (0 <=? exp10)%Z then round_binary64 (mant * 10 ^ exp10) 1
  else round_binary64 mant (10 ^ (- exp10)).

(** StrUnsignedDecimalLiteral. *)
Definition unsigned_decimal (s : string) : number :=
  if s =? "Infinity" then Infinity false
  else
    let '(ip, ni, rest) := digits 10 0 0 s in
    match rest with
    | String "." rest' =>
        let '(mant, nf, rest'') := digits 10 ip 0 rest' in
        match ni, nf with
        | O, O => NaN
        | _, _ =>
            match exponent_part rest'' with
            | Some x => decimal_value mant (x - Z.of_nat nf)
            | None => NaN
            end
        end
    | _ =>
        match ni with
        | O => NaN
        | S _ =>
            match exponent_part rest with
            | Some x => decimal_value ip x
            | None => NaN
            end
        end
    end.

(** StringToNumber. *)
Definition StringToNumber (s : string) : number :=
  match trim s with
  | EmptyString => Fin 0
  | String "+" t => unsigned_decimal t
  | String "-" t => negate (unsigned_decimal t)
  | String "0" (String c t) as lit =>
      if (c =? "x")%char || (c =? "X")%char then radix_literal 16 t
      else if (c =? "o")%char || (c =? "O")%char then radix_literal 8 t
      else if (c =? "b")%char || (c =? "B")%char then radix_literal 2 t
      else unsigned_decimal lit
  | lit => unsigned_decimal lit
  end.

(** [Number(v)] for [v] a string or [undefined], as read from
    [process.env]. *)
Definition Number (v : option string) : number :=
  match v with
  | None => NaN
  | Some s => StringToNumber s
  end.

End JS.

(** ** Screenshot collector *)

Module ScreenshotCollector.

Section Collector.

(** A captured frame (an image buffer in the program). *)
Variable Frame : Type.

(** Modelled from the spec: the states of the collector's state
    machine, [Stopped] being terminal. *)
Inductive Phase : Type := Idle | Running | Stopped.

(** Modelled from the spec: the class [ScreenshotCollector] of
    [evals/utils/ScreenshotCollector] is used by the tasks and is not
    among the sources.  Its state is the phase of the state machine
    [Idle -> Running -> Stopped], the capacity and the buffer. *)
Record t : Type := mk {
  maxScreenshots : nat;
  phase : Phase;
  screenshots : list Frame;
}.

(** Modelled from the spec: [new ScreenshotCollector(page, { maxScreenshots })]. *)
Definition new (maxScreenshots : nat) : t := mk maxScreenshots Idle [].

(** Modelled from the spec: [start()] takes [Idle] to [Running]. *)
Definition start (c : t) : t :=
  match phase c with
  | Idle => mk (maxScreenshots c) Running (screenshots c)
  | _ => c
  end.

(** Modelled from the spec: the frame is appended, and when the
    capacity is exceeded the oldest frame is evicted. *)
Definition push (c : t) (f : Frame) : t :=
  let buffer := (screenshots c ++ [f])%list in
  mk (maxScreenshots c) (phase c)
     (if (maxScreenshots c <? length buffer)%nat then tl buffer else buffer).

(** Modelled from the spec: one capture step.  A failed read of the
    page ([None]) is swallowed and the step skipped; no capture fires
    unless the collector is running. *)
Definition capture (c : t) (attempt : option Frame) : t :=
  match phase c, attempt with
  | Running, Some f => push c f
  | _, _ => c
  end.

(** Modelled from the spec: [stop()] takes [Running] to [Stopped] and
    returns the buffer; before [start()] or a second time it changes
    nothing and returns the buffer as it is. *)
Definition stop (c : t) : t * list Frame :=
  match phase c with
  | Running => (mk (maxScreenshots c) Stopped (screenshots c), screenshots c)
  | _ => (c, screenshots c)
  end.

(** What reaches a collector from outside. *)
Inductive Op : Type :=
| OpStart
| OpCapture (attempt : option Frame)
| OpStop.

(** One operation on a collector. *)
Definition step (c : t) (o : Op) : t :=
  match o with
  | OpStart => start c
  | OpCapture a => capture c a
  | OpStop => fst (stop c)
  end.

(** A collector after a sequence of operations. *)
Definition run (c : t) (ops : list Op) : t := fold_left step ops c.

(** A started collector of capacity [n] after the given successful
    captures, in capture order. *)
Definition captured (n : nat) (frames : list Frame) : t :=
  fold_left capture (map Some frames) (start (new n)).

End Collector.

Arguments mk {Frame}.
Arguments maxScreenshots {Frame}.
Arguments phase {Frame}.
Arguments screenshots {Frame}.
Arguments start {Frame}.
Arguments push {Frame}.
Arguments capture {Frame}.
Arguments stop {Frame}.
Arguments step {Frame}.
Arguments run {Frame}.
Arguments captured {Frame}.
Arguments OpStart {Frame}.
Arguments OpCapture {Frame}.
Arguments OpStop {Frame}.

End ScreenshotCollector.

(** ** The world outside a task, and the effects of a task *)

Module Eval.

(** A screenshot is an image buffer. *)
Definition Frame : Type := string.

(** A thrown value: an [Error] with its message, or any other value
    with its [String(...)] rendering. *)
Inductive Thrown : Type :=
| Error (message : string)
| NonError (text : string).

(** [e instanceof Error ? e.message : String(e)] *)
Definition thrown_text (e : Thrown) : string :=
  match e with
  | Error m => m
  | NonError t => t
  end.

(** How a call or a block completes. *)
Inductive Completion (A : Type) : Type :=
| Normal (a : A)
| Throw (e : Thrown).
Arguments Normal {A}.
Arguments Throw {A}.

(** What [modelToAgentProviderMap[modelName]] is once
    [modelName in modelToAgentProviderMap] holds: the provider of an
    entry of the registry, or, for a name the registry has from
    [Object.prototype] only, the property inherited under that name. *)
Inductive Provider : Type :=
| Registered (provider : string)
| Inherited (property : string).

Record AgentConfig : Type := {
  cfg_model : string;
  cfg_provider : Provider;
  cfg_instructions : string;
  cfg_apiKey : option string;
}.

(** What [agent.execute] resolves to; the tasks read [message] only. *)
Record AgentResult : Type := { message : option string }.

(** What [stagehand.agent(...)] returns. *)
Record Agent : Type := {
  setScreenshotCollector : bool;
  execute : string -> JS.number -> Completion AgentResult;
}.

(** The judge's answer. *)
Record Verdict : Type := {
  evaluation : string;
  reasoning : string;
}.

(** The [screenshot] option of [evaluator.ask]: frames, or [false]. *)
Inductive ScreenshotArg : Type :=
| Frames (frames : list Frame)
| NoScreenshot.

Record AskRequest : Type := {
  question : string;
  screenshot : ScreenshotArg;
  agentReasoning : option string;
  answer : option string;
}.

Inductive LogEntry : Type :=
| LogAgentResult (r : AgentResult)
| LogLine (category message : string) (level : Z).

(** The calls of a task that leave it, in the order they happen. *)
Inductive Event : Type :=
| DateNow
| Goto (url : string) (timeout : Z)
| Title
| LoadApiKeyFromEnv (provider : Provider)
| CreateAgent (cfg : AgentConfig)
| SetScreenshotCollector
| CollectorStart
| Execute (instruction : string) (maxSteps : JS.number)
| LoggerLog (entry : LogEntry)
| CollectorStop
| Ask (req : AskRequest)
| LoggerError (category message error_value : string)
| ConsoleError (e : Thrown)
| GetLogs
| Close.

Definition Trace : Type := list Event.

(** Everything a task reads from outside its own code.  The clock and
    the logger answer by the calls made so far. *)
Record World : Type := {
  process_env : string -> option string;
  modelToAgentProviderMap : list (string * string);
  JSON_stringify : forall P : Type, P -> string;
  Date_now : Trace -> Z;
  page_goto : string -> Completion unit;
  page_title : Completion string;
  loadApiKeyFromEnv : Provider -> Completion (option string);
  stagehand_agent : AgentConfig -> Completion Agent;
  captures : list (option Frame);
  evaluator_ask : AskRequest -> Completion Verdict;
  logger_getLogs : Trace -> list string;
}.

(** A computation appends to the trace and completes normally or
    throws. *)
Definition M (A : Type) : Type := Trace -> Trace * Completion A.

Definition ret {A} (a : A) : M A := fun t => (t, Normal a).

Definition throw {A} (e : Thrown) : M A := fun t => (t, Throw e).

Definition bind {A B} (m : M A) (k : A -> M B) : M B :=
  fun t =>
    match m t with
    | (t', Normal a) => k a t'
    | (t', Throw e) => (t', Throw e)
    end.

(** A call: it is recorded, then completes as the world says. *)
Definition call {A} (ev : Event) (answer : Trace -> Completion A) : M A :=
  fun t => ((t ++ [ev])%list, answer t).

Definition emit (ev : Event) : M unit := call ev (fun _ => Normal tt).

(** [try { body } catch (e) { handler(e) }] *)
Definition try_catch {A} (body : M A) (handler : Thrown -> M A) : M A :=
  fun t =>
    match body t with
    | (t', Throw e) => handler e t'
    | done => done
    end.

(** [try { body } finally { cleanup }] *)
Definition try_finally {A} (body : M A) (cleanup : M unit) : M A :=
  fun t =>
    match body t with
    | (t', c) =>
        match cleanup t' with
        | (t'', Normal _) => (t'', c)
        | (t'', Throw e) => (t'', Throw e)
        end
    end.

Declare Scope eval_scope.
Delimit Scope eval_scope with eval.
Notation "x <- m ;; k" := (bind m (fun x => k))
  (at level 61, m at next level, right associativity) : eval_scope.
Notation "m ;;; k" := (bind m (fun _ => k))
  (at level 61, right associativity) : eval_scope.

(** Run a task from the empty trace. *)
Definition run {A} (m : M A) : Trace * Completion A := m [].

Definition trace_of {A} (m : M A) : Trace := fst (run m).
Definition outcome_of {A} (m : M A) : Completion A := snd (run m).

End Eval.

(** ** The evaluation tasks *)

Module Tasks.
Import Eval.
Local Open Scope eval_scope.

(** What a task is called with, besides the [stagehand] and [logger]
    handles, which are the world. *)
Record EvalInput (P : Type) : Type := {
  input_name : string;
  input_modelName : string;
  input_params : option P;
}.
Arguments input_name {P}.
Arguments input_modelName {P}.
Arguments input_params {P}.

Record TaskArgs (P : Type) : Type := {
  debugUrl : string;
  sessionUrl : string;
  modelName : string;
  input : option (EvalInput P);
}.
Arguments debugUrl {P}.
Arguments sessionUrl {P}.
Arguments modelName {P}.
Arguments input {P}.

(** What a task returns; a key the task leaves out is [None]. *)
Record EvalResult : Type := {
  _success : bool;
  error : option string;
  res_reasoning : option string;
  final_answer : option string;
  screenshotCount : option nat;
  task_level : option string;
  execution_time : option Z;
  res_debugUrl : string;
  res_sessionUrl : string;
  logs : list string;
}.

Record WebVoyagerParams : Type := {
  wv_id : option string;
  wv_web : option string;
  wv_ques : option string;
  wv_web_name : option string;
}.

Record Mind2WebParams : Type := {
  m2w_task_id : option string;
  m2w_confirmed_task : option string;
  m2w_website : option string;
  m2w_reference_length : option JS.number;
  m2w_level : option string;
}.

Record GaiaParams : Type := {
  gaia_id : option string;
  gaia_level : option JS.number;
  gaia_web : option string;
  gaia_ques : option string;
  gaia_expected : option string;
}.

(** [(input && input.params)], to be completed by [|| {}]. *)
Definition params_of {P} (a : TaskArgs P) : option P :=
  match input a with
  | Some i => input_params i
  | None => None
  end.

(** [params.field], where [params] is [{}] when nothing was given. *)
Definition field {P A} (params : option P) (get : P -> option A) : option A :=
  match params with
  | Some p => get p
  | None => None
  end.

(** A field that passed the [!field] test: a non-empty string. *)
Definition present (field : option string) : option string :=
  match field with
  | Some s => if s =? "" then None else Some s
  | None => None
  end.

Definition dquote : string := String (ascii_of_nat 34) EmptyString.

(** The string of a length, as a template literal prints it. *)
Definition string_of_nat (n : nat) : string :=
  DecimalString.NilZero.string_of_uint (Nat.to_uint n).

(** The names every object literal has from [Object.prototype]. *)
Definition object_prototype_names : list string :=
  ["constructor"; "__defineGetter__"; "__defineSetter__"; "hasOwnProperty";
   "__lookupGetter__"; "__lookupSetter__"; "isPrototypeOf";
   "propertyIsEnumerable"; "toString"; "valueOf"; "__proto__";
   "toLocaleString"].

Definition inherited (name : string) : bool :=
  existsb (String.eqb name) object_prototype_names.

(** The provider of the entry of the registry under a key of its own. *)
Fixpoint own (registry : list (string * string)) (model : string)
  : option string :=
  match registry with
  | [] => None
  | (k, v) :: rest => if k =? model then Some v else own rest model
  end.

(** [modelName in modelToAgentProviderMap] together with
    [modelToAgentProviderMap[modelName]]: [None] when the [in] test
    fails.  The registry is an object literal, given by the list of its
    own entries in the order of [Object.keys]; [in] also holds for the
    names it inherits from [Object.prototype], and an entry of its own
    comes before an inherited property of the same name. *)
Definition provider_of (registry : list (string * string)) (model : string)
  : option Provider :=
  match own registry model with
  | Some provider => Some (Registered provider)
  | None => if inherited model then Some (Inherited model) else None
  end.

(** [Object.keys(modelToAgentProviderMap)] *)
Definition keys (registry : list (string * string)) : list string :=
  map fst registry.

Definition unsupported_model_message (w : World) (model : string) : string :=
  "Model " ++ model
  ++ " is not supported for agent tasks. Supported models: "
  ++ JS.join ", " (keys (modelToAgentProviderMap w)).

Definition agent_instructions (title : string) : string :=
  "You are a helpful assistant that must solve the task by browsing. At the end, produce a single line: "
  ++ dquote ++ "Final Answer: <answer>" ++ dquote
  ++ " summarizing the requested result (e.g., score, list, or text). Current page: "
  ++ title
  ++ ". ALWAYS OPERATE WITHIN THE PAGE OPENED BY THE USER, WHICHEVER TASK YOU ARE ATTEMPTING TO COMPLETE CAN BE ACCOMPLISHED WITHIN THE PAGE.".

(** [stagehand.agent({ model, provider, instructions, options })]: the
    argument is evaluated first, in the order of its keys. *)
Definition make_agent (w : World) (model : string) (provider : Provider)
  : M Agent :=
  title <- call Title (fun _ => page_title w) ;;
  apiKey <- call (LoadApiKeyFromEnv provider)
                 (fun _ => loadApiKeyFromEnv w provider) ;;
  let cfg := {| cfg_model := model;
                cfg_provider := provider;
                cfg_instructions := agent_instructions title;
                cfg_apiKey := apiKey |} in
  call (CreateAgent cfg) (fun _ => stagehand_agent w cfg).

(** [Number(process.env.AGENT_EVAL_MAX_STEPS) || fallback] *)
Definition maxSteps_or (w : World) (fallback : Z) : JS.number :=
  JS.or_else (JS.Number (process_env w "AGENT_EVAL_MAX_STEPS"))
             (JS.num fallback).

(** The frames a collector of capacity 8 hands back at [stop()], after
    the capture attempts made while the agent ran. *)
Definition collected (w : World) : list Frame :=
  snd (ScreenshotCollector.stop
         (fold_left ScreenshotCollector.capture (captures w)
            (ScreenshotCollector.start (ScreenshotCollector.new Frame 8)))).

Definition collected_line (screenshots : list Frame) : LogEntry :=
  LogLine "evaluation"
    ("Collected " ++ string_of_nat (length screenshots)
     ++ " screenshots for evaluation") 1.

Definition no_reasoning : string :=
  "no reasoning available, agent potentially hit step limit".

Definition completed_question (task : string) : string :=
  "Did the agent successfully complete this task: "
  ++ dquote ++ task ++ dquote ++ "?".

Definition now (w : World) : M Z := call DateNow (fun t => Normal (Date_now w t)).

Definition getLogs (w : World) : M (list string) :=
  call GetLogs (fun t => Normal (logger_getLogs w t)).

(** [catch (error) { console.error(error); throw error; }] *)
Definition log_and_rethrow {A} (e : Thrown) : M A :=
  emit (ConsoleError e) ;;; throw e.

Definition webvoyager (w : World) (a : TaskArgs WebVoyagerParams)
  : M EvalResult :=
  startTime <- now w ;;
  try_catch
    (let params := params_of a in
     match present (field params wv_web), present (field params wv_ques) with
     | Some web, Some ques =>
         call (Goto web 120000) (fun _ => page_goto w web) ;;;
         match provider_of (modelToAgentProviderMap w) (modelName a) with
         | None =>
             logs <- getLogs w ;;
             ret {| _success := false;
                    error := Some (unsupported_model_message w (modelName a));
                    res_reasoning := None; final_answer := None;
                    screenshotCount := None; task_level := None;
                    execution_time := None;
                    res_debugUrl := debugUrl a;
                    res_sessionUrl := sessionUrl a;
                    logs := logs |}
         | Some provider =>
             agent <- make_agent w (modelName a) provider ;;
             (if setScreenshotCollector agent
              then emit SetScreenshotCollector else ret tt) ;;;
             emit CollectorStart ;;;
             let maxSteps := maxSteps_or w 75 in
             agentResult <- call (Execute ques maxSteps)
                                 (fun _ => execute agent ques maxSteps) ;;
             emit (LoggerLog (LogAgentResult agentResult)) ;;;
             emit CollectorStop ;;;
             let screenshots := collected w in
             emit (LoggerLog (collected_line screenshots)) ;;;
             let req := {| question := completed_question ques;
                           screenshot := Frames screenshots;
                           agentReasoning :=
                             Some (JS.or_str (message agentResult) no_reasoning);
                           answer := None |} in
             evalResult <- call (Ask req) (fun _ => evaluator_ask w req) ;;
             endTime <- now w ;;
             logs <- getLogs w ;;
             ret {| _success := evaluation evalResult =? "YES";
                    error := None;
                    res_reasoning := Some (reasoning evalResult);
                    final_answer := message agentResult;
                    screenshotCount := Some (length screenshots);
                    task_level := None;
                    execution_time := Some (endTime - startTime)%Z;
                    res_debugUrl := debugUrl a;
                    res_sessionUrl := sessionUrl a;
                    logs := logs |}
         end
     | _, _ =>
         logs <- getLogs w ;;
         ret {| _success := false;
                error := Some ("Missing WebVoyager params (web, ques). Got: "
                               ++ JSON_stringify w _ params);
                res_reasoning := None; final_answer := None;
                screenshotCount := None; task_level := None;
                execution_time := None;
                res_debugUrl := debugUrl a;
                res_sessionUrl := sessionUrl a;
                logs := logs |}
     end)
    log_and_rethrow.

Definition onlineMind2Web (w : World) (a : TaskArgs Mind2WebParams)
  : M EvalResult :=
  startTime <- now w ;;
  try_catch
    (let params := params_of a in
     match present (field params m2w_website),
           present (field params m2w_confirmed_task) with
     | Some website, Some confirmed_task =>
         call (Goto website 120000) (fun _ => page_goto w website) ;;;
         match provider_of (modelToAgentProviderMap w) (modelName a) with
         | None =>
             logs <- getLogs w ;;
             ret {| _success := false;
                    error := Some (unsupported_model_message w (modelName a));
                    res_reasoning := None; final_answer := None;
                    screenshotCount := None; task_level := None;
                    execution_time := None;
                    res_debugUrl := debugUrl a;
                    res_sessionUrl := sessionUrl a;
                    logs := logs |}
         | Some provider =>
             agent <- make_agent w (modelName a) provider ;;
             (if setScreenshotCollector agent
              then emit SetScreenshotCollector else ret tt) ;;;
             emit CollectorStart ;;;
             let maxSteps := maxSteps_or w 80 in
             agentResult <- call (Execute confirmed_task maxSteps)
                                 (fun _ => execute agent confirmed_task maxSteps) ;;
             emit (LoggerLog (LogAgentResult agentResult)) ;;;
             emit CollectorStop ;;;
             let screenshots := collected w in
             emit (LoggerLog (collected_line screenshots)) ;;;
             let req := {| question := completed_question confirmed_task;
                           screenshot := Frames screenshots;
                           agentReasoning :=
                             Some (JS.or_str (message agentResult) no_reasoning);
                           answer := None |} in
             evalResult <- call (Ask req) (fun _ => evaluator_ask w req) ;;
             if JS.includes (reasoning evalResult) "access denied"
                && (evaluation evalResult =? "NO")
             then throw (Error "access denied")
             else
               endTime <- now w ;;
               logs <- getLogs w ;;
               ret {| _success := evaluation evalResult =? "YES";
                      error := None;
                      res_reasoning := Some (reasoning evalResult);
                      final_answer := message agentResult;
                      screenshotCount := Some (length screenshots);
                      task_level := field params m2w_level;
                      execution_time := Some (endTime - startTime)%Z;
                      res_debugUrl := debugUrl a;
                      res_sessionUrl := sessionUrl a;
                      logs := logs |}
         end
     | _, _ =>
         logs <- getLogs w ;;
         ret {| _success := false;
                error := Some ("Missing onlineMind2Web params (website, confirmed_task). Got: "
                               ++ JSON_stringify w _ params);
                res_reasoning := None; final_answer := None;
                screenshotCount := None; task_level := None;
                execution_time := None;
                res_debugUrl := debugUrl a;
                res_sessionUrl := sessionUrl a;
                logs := logs |}
     end)
    log_and_rethrow.

(** [`${expected}`] for a possibly undefined string. *)
Definition interpolate (v : option string) : string :=
  match v with
  | Some s => s
  | None => "undefined"
  end.

Definition expected_question (expected : option string) : string :=
  "Did the agent provide the expected answer: "
  ++ dquote ++ interpolate expected ++ dquote ++ "?".

Definition gaia (w : World) (a : TaskArgs GaiaParams) : M EvalResult :=
  startTime <- now w ;;
  try_finally
    (let params := params_of a in
     match present (field params gaia_web), present (field params gaia_ques) with
     | Some web, Some ques =>
         call (Goto web 120000) (fun _ => page_goto w web) ;;;
         match provider_of (modelToAgentProviderMap w) (modelName a) with
         | None =>
             logs <- getLogs w ;;
             ret {| _success := false;
                    error := Some (unsupported_model_message w (modelName a));
                    res_reasoning := None; final_answer := None;
                    screenshotCount := None; task_level := None;
                    execution_time := None;
                    res_debugUrl := debugUrl a;
                    res_sessionUrl := sessionUrl a;
                    logs := logs |}
         | Some provider =>
             agent <- make_agent w (modelName a) provider ;;
             let maxSteps := maxSteps_or w 50 in
             result <- call (Execute ques maxSteps)
                            (fun _ => execute agent ques maxSteps) ;;
             emit (LoggerLog (LogAgentResult result)) ;;;
             let expected := field params gaia_expected in
             let req := {| question := expected_question expected;
                           screenshot := NoScreenshot;
                           agentReasoning := None;
                           answer := Some (JS.or_str (message result) "") |} in
             evalResult <-
               try_catch
                 (call (Ask req) (fun _ => evaluator_ask w req))
                 (fun evalError =>
                    emit (LoggerError "gaia" "Evaluator failed"
                                      (thrown_text evalError)) ;;;
                    throw evalError) ;;
             endTime <- now w ;;
             logs <- getLogs w ;;
             ret {| _success := evaluation evalResult =? "YES";
                    error := None;
                    res_reasoning := Some (reasoning evalResult);
                    final_answer := message result;
                    screenshotCount := None;
                    task_level := None;
                    execution_time := Some (endTime - startTime)%Z;
                    res_debugUrl := debugUrl a;
                    res_sessionUrl := sessionUrl a;
                    logs := logs |}
         end
     | _, _ =>
         endTime <- now w ;;
         logs <- getLogs w ;;
         ret {| _success := false;
                error := Some ("Missing GAIA params (web, ques). Got: "
                               ++ JSON_stringify w _ params);
                res_reasoning := None; final_answer := None;
                screenshotCount := None; task_level := None;
                execution_time := Some (endTime - startTime)%Z;
                res_debugUrl := debugUrl a;
                res_sessionUrl := sessionUrl a;
                logs := logs |}
     end)
    (emit Close).

(** Events that touch the page or the agent. *)
Definition navigates (ev : Event) : bool :=
  match ev with
  | Goto _ _ => true
  | _ => false
  end.

Definition uses_agent (ev : Event) : bool :=
  match ev with
  | CreateAgent _ | SetScreenshotCollector | Execute _ _ => true
  | _ => false
  end.

Definition is_execute (ev : Event) : bool :=
  match ev with
  | Execute _ _ => true
  | _ => false
  end.

(** A run that neither navigates the page nor touches the agent. *)
Definition leaves_page_and_agent_alone (t : Trace) : Prop :=
  Forall (fun ev => navigates ev = false /\ uses_agent ev = false) t.

(** A run in which [agent.execute] is not called. *)
Definition never_executes (t : Trace) : Prop :=
  Forall (fun ev => is_execute ev = false) t.

(** The task returned (it did not throw) a result that reports a
    failure with the given error message. *)
Definition failure_result (c : Completion EvalResult) (msg : string) : Prop :=
  exists r, c = Normal r /\ _success r = false /\ error r = Some msg.

(** The result a task returns for a model without provider. *)
Definition unsupported_result {P} (w : World) (a : TaskArgs P)
  (logs : list string) : EvalResult :=
  {| _success := false;
     error := Some (unsupported_model_message w (modelName a));
     res_reasoning := None; final_answer := None;
     screenshotCount := None; task_level := None;
     execution_time := None;
     res_debugUrl := debugUrl a;
     res_sessionUrl := sessionUrl a;
     logs := logs |}.

(** The world lets a task get as far as running its agent: the
    navigation to [web] succeeds, [model in modelToAgentProviderMap]
    holds, and the page title, the API key and the agent are obtained. *)
Definition ready (w : World) (model web : string) : Prop :=
  page_goto w web = Normal tt
  /\ exists provider title key ag,
      provider_of (modelToAgentProviderMap w) model = Some provider
      /\ page_title w = Normal title
      /\ loadApiKeyFromEnv w provider = Normal key
      /\ stagehand_agent w {| cfg_model := model;
                              cfg_provider := provider;
                              cfg_instructions := agent_instructions title;
                              cfg_apiKey := key |} = Normal ag.

(** The step budget a task asks for when it calls [agent.execute]. *)
Definition budget_is (t : Trace) (n : JS.number) : Prop :=
  forall instruction maxSteps, In (Execute instruction maxSteps) t -> maxSteps = n.

(** The task runs its agent with the step budget [n]: whenever the
    parameters are present and the world lets the task get that far,
    [agent.execute] is called with the task text and [n]; and no run
    calls it with another budget. *)
Definition runs_agent_with {P} (task : World -> TaskArgs P -> M EvalResult)
  (web_of text_of : P -> option string) (w : World) (n : JS.number) : Prop :=
  forall a : TaskArgs P,
    (forall instruction maxSteps,
        In (Execute instruction maxSteps) (trace_of (task w a)) -> maxSteps = n)
    /\ forall web instruction,
        present (field (params_of a) web_of) = Some web ->
        present (field (params_of a) text_of) = Some instruction ->
        ready w (modelName a) web ->
        In (Execute instruction n) (trace_of (task w a)).

End Tasks.

(** ** The test-case builder *)

Module Testcases.

(** A dataset row that passed [isMind2WebRow]. *)
Record Mind2WebRow : Type := {
  task_id : string;
  confirmed_task : string;
  website : string;
  reference_length : option JS.number;
  level : option string;
}.

(** An entry of [tasksConfig]. *)
Record TaskConfig : Type := {
  cfg_name : string;
  cfg_categories : list string;
}.

Record Metadata : Type := {
  model : string;
  test : string;
  category : string;
  categories : list string;
  dataset : string;
  md_task_id : string;
  difficulty : option string;
  md_website : string;
}.

Record Testcase : Type := {
  input : Tasks.EvalInput Tasks.Mind2WebParams;
  name : string;
  tags : list string;
  metadata : Metadata;
  expected : bool;
}.

(** What the builder reads from outside its own code: the environment
    variables, [__dirname] and [path.join], the helpers of [../utils]
    and the table of [../taskConfig].  The helpers are taken as the
    values they return, [parseJsonlRows] with its predicate
    [isMind2WebRow] applied. *)
Record Env : Type := {
  process_env : string -> option string;
  dirname : string;
  path_join : list string -> string;
  readJsonlFile : string -> list string;
  parseJsonlRows : list string -> list Mind2WebRow;
  applySampling :
    list Mind2WebRow -> option JS.number -> JS.number -> list Mind2WebRow;
  tasksConfig : list TaskConfig;
}.

(** [process.env.EVAL_MAX_K ? Number(process.env.EVAL_MAX_K)
     : process.env.EVAL_ONLINEMIND2WEB_LIMIT
       ? Number(process.env.EVAL_ONLINEMIND2WEB_LIMIT) : 25] *)
Definition maxCases (env : string -> option string) : JS.number :=
  if JS.truthy_str (env "EVAL_MAX_K")
  then JS.Number (env "EVAL_MAX_K")
  else if JS.truthy_str (env "EVAL_ONLINEMIND2WEB_LIMIT")
       then JS.Number (env "EVAL_ONLINEMIND2WEB_LIMIT")
       else JS.num 25.

Definition sampleCount (env : string -> option string) : option JS.number :=
  if JS.truthy_str (env "EVAL_ONLINEMIND2WEB_SAMPLE")
  then Some (JS.Number (env "EVAL_ONLINEMIND2WEB_SAMPLE"))
  else None.

(** [tasksConfig.find((t) => t.name === name)?.categories || []] *)
Definition taskCategories (config : list TaskConfig) (name : string)
  : list string :=
  match find (fun t => cfg_name t =? name) config with
  | Some t => cfg_categories t
  | None => []
  end.

(** The body of the inner loop: the test case pushed for one model and
    one row. *)
Definition testcase (config : list TaskConfig) (model : string)
  (row : Mind2WebRow) : Testcase :=
  let input :=
    {| Tasks.input_name := "agent/onlineMind2Web";
       Tasks.input_modelName := model;
       Tasks.input_params :=
         Some {| Tasks.m2w_task_id := Some (task_id row);
                 Tasks.m2w_confirmed_task := Some (confirmed_task row);
                 Tasks.m2w_website := Some (website row);
                 Tasks.m2w_reference_length := reference_length row;
                 Tasks.m2w_level := level row |} |} in
  let taskCategories := taskCategories config (Tasks.input_name input) in
  {| input := input;
     name := Tasks.input_name input;
     tags := [model; "mind2web"];
     metadata :=
       {| model := model;
          test := Tasks.input_name input ++ ":" ++ task_id row;
          category := JS.or_str (hd_error taskCategories) "agent";
          categories := taskCategories;
          dataset := "onlineMind2Web";
          md_task_id := task_id row;
          difficulty := level row;
          md_website := website row |};
     expected := true |}.

(** The two loops: for each model, for each row, push a test case. *)
Definition buildTestcases (config : list TaskConfig)
  (rows : list Mind2WebRow) (models : list string) : list Testcase :=
  fold_left
    (fun allTestcases model =>
       fold_left
         (fun allTestcases row =>
            (allTestcases ++ [testcase config model row])%list)
         rows allTestcases)
    models [].

Definition buildOnlineMind2WebTestcases (env : Env) (models : list string)
  : list Testcase :=
  let mind2webFilePath :=
    path_join env
      [dirname env; ".."; "datasets"; "onlineMind2Web"; "onlineMind2Web.jsonl"] in
  let lines := readJsonlFile env mind2webFilePath in
  let maxCases := maxCases (process_env env) in
  let sampleCount := sampleCount (process_env env) in
  let candidates := parseJsonlRows env lines in
  let rows := applySampling env candidates sampleCount maxCases in
  buildTestcases (tasksConfig env) rows models.

(** The row a test case was built from, read back from its parameters. *)
Definition row_of (tc : Testcase) : option Mind2WebRow :=
  match Tasks.input_params (input tc) with
  | Some p =>
      match Tasks.m2w_task_id p, Tasks.m2w_confirmed_task p,
            Tasks.m2w_website p with
      | Some t, Some c, Some s =>
          Some {| task_id := t; confirmed_task := c; website := s;
                  reference_length := Tasks.m2w_reference_length p;
                  level := Tasks.m2w_level p |}
      | _, _, _ => None
      end
  | None => None
  end.

End Testcases.

(** ** Reading traces *)

Module Observe.
Import Eval.

Definition is_ask (ev : Event) : bool :=
  match ev with
  | Ask _ => true
  | _ => false
  end.

Definition is_create (ev : Event) : bool :=
  match ev with
  | CreateAgent _ => true
  | _ => false
  end.

Definition is_close (ev : Event) : bool :=
  match ev with
  | Close => true
  | _ => false
  end.

Definition is_collector (ev : Event) : bool :=
  match ev with
  | SetScreenshotCollector | CollectorStart | CollectorStop => true
  | _ => false
  end.

Definition is_collector_start (ev : Event) : bool :=
  match ev with
  | CollectorStart => true
  | _ => false
  end.

Definition is_collector_stop (ev : Event) : bool :=
  match ev with
  | CollectorStop => true
  | _ => false
  end.

(** How many events of a kind a trace holds. *)
Definition count {E : Type} (kind : E -> bool) (t : list E) : nat :=
  length (filter kind t).

(** No event of a kind. *)
Definition none {E : Type} (kind : E -> bool) (t : list E) : Prop :=
  Forall (fun ev => kind ev = false) t.

(** Every event of the kind [later] comes after some event of the kind
    [earlier]. *)
Definition happens_before {E : Type} (earlier later : E -> bool) (t : list E)
  : Prop :=
  forall pre ev post,
    t = (pre ++ ev :: post)%list ->
    later ev = true ->
    exists ev', In ev' pre /\ earlier ev' = true.

(** The same, decided along the trace; [seen] tells whether an event of
    the kind [earlier] has gone by. *)
Fixpoint precededb {E : Type} (earlier later : E -> bool) (seen : bool)
  (t : list E) : bool :=
  match t with
  | [] => true
  | ev :: t' =>
      (if later ev then seen else true)
      && precededb earlier later (seen || earlier ev) t'
  end.


End Observe.

(** ** Dataset rows *)

Module Dataset.

(** A value as [JSON.parse] returns it; an object is the list of its own
    properties, each key once. *)
#[local] Unset Elimination Schemes.
Inductive Json : Type :=
| JNull
| JBool (b : bool)
| JNumber (n : JS.number)
| JString (s : string)
| JArray (items : list Json)
| JObject (fields : list (string * Json)).
#[local] Set Elimination Schemes.

Fixpoint lookup (fields : list (string * Json)) (key : string) : option Json :=
  match fields with
  | [] => None
  | (k, v) :: rest => if k =? key then Some v else lookup rest key
  end.

(** [obj.key] for a name that is neither an index nor [length]:
    [undefined] on an array and on an object without the property. *)
Definition prop (obj : Json) (key : string) : option Json :=
  match obj with
  | JObject fields => lookup fields key
  | _ => None
  end.

(** [typeof v === "string"] *)
Definition is_string (v : option Json) : bool :=
  match v with
  | Some (JString _) => true
  | _ => false
  end.

(** The type guard of the builder. *)
Definition isMind2WebRow (parsed : Json) : bool :=
  match parsed with
  | JNull => false
  | JArray _ | JObject _ =>
      is_string (prop parsed "task_id")
      && is_string (prop parsed "confirmed_task")
      && is_string (prop parsed "website")
  | _ => false
  end.

End Dataset.

(** ** Sample worlds and inputs *)

Module Samples.
Import Eval Tasks.

Definition registry : list (string * string) :=
  [("computer-use-preview", "openai");
   ("claude-sonnet-4-20250514", "anthropic")].

Definition agent : Agent :=
  {| setScreenshotCollector := true;
     execute := fun _ _ => Normal {| message := Some "Final Answer: 42" |} |}.

(** A world where every call succeeds and the judge says YES. *)
Definition world : World :=
  {| process_env := fun _ => None;
     modelToAgentProviderMap := registry;
     JSON_stringify := fun _ _ => "{}";
     Date_now := fun t => Z.of_nat (length t);
     page_goto := fun _ => Normal tt;
     page_title := Normal "Example Domain";
     loadApiKeyFromEnv := fun _ => Normal (Some "sk-test");
     stagehand_agent := fun _ => Normal agent;
     captures := [Some "frame-1"; None; Some "frame-2"];
     evaluator_ask :=
       fun _ => Normal {| evaluation := "YES"; reasoning := "task completed" |};
     logger_getLogs := fun _ => [] |}.

Definition with_env (w : World) (key value : string) : World :=
  {| process_env := fun k => if k =? key then Some value else process_env w k;
     modelToAgentProviderMap := modelToAgentProviderMap w;
     JSON_stringify := JSON_stringify w;
     Date_now := Date_now w;
     page_goto := page_goto w;
     page_title := page_title w;
     loadApiKeyFromEnv := loadApiKeyFromEnv w;
     stagehand_agent := stagehand_agent w;
     captures := captures w;
     evaluator_ask := evaluator_ask w;
     logger_getLogs := logger_getLogs w |}.

Definition with_judge (w : World) (judge : AskRequest -> Completion Verdict)
  : World :=
  {| process_env := process_env w;
     modelToAgentProviderMap := modelToAgentProviderMap w;
     JSON_stringify := JSON_stringify w;
     Date_now := Date_now w;
     page_goto := page_goto w;
     page_title := page_title w;
     loadApiKeyFromEnv := loadApiKeyFromEnv w;
     stagehand_agent := stagehand_agent w;
     captures := captures w;
     evaluator_ask := judge;
     logger_getLogs := logger_getLogs w |}.

Definition with_goto (w : World) (goto : string -> Completion unit) : World :=
  {| process_env := process_env w;
     modelToAgentProviderMap := modelToAgentProviderMap w;
     JSON_stringify := JSON_stringify w;
     Date_now := Date_now w;
     page_goto := goto;
     page_title := page_title w;
     loadApiKeyFromEnv := loadApiKeyFromEnv w;
     stagehand_agent := stagehand_agent w;
     captures := captures w;
     evaluator_ask := evaluator_ask w;
     logger_getLogs := logger_getLogs w |}.

Definition args {P} (model : string) (params : option P) : TaskArgs P :=
  {| debugUrl := "https://debug.example/1";
     sessionUrl := "https://session.example/1";
     modelName := model;
     input := Some {| input_name := "agent/task";
                      input_modelName := model;
                      input_params := params |} |}.

Definition webvoyager_params : WebVoyagerParams :=
  {| wv_id := Some "Allrecipes--0";
     wv_web := Some "https://www.allrecipes.com/";
     wv_ques := Some "Find a vegetarian lasagna recipe";
     wv_web_name := Some "Allrecipes" |}.

Definition mind2web_params : Mind2WebParams :=
  {| m2w_task_id := Some "t1";
     m2w_confirmed_task := Some "find price";
     m2w_website := Some "https://example.com";
     m2w_reference_length := None;
     m2w_level := Some "easy" |}.

Definition gaia_params : GaiaParams :=
  {| gaia_id := Some "g1";
     gaia_level := None;
     gaia_web := Some "https://www.wikipedia.org/";
     gaia_ques := Some "Who wrote Pride and Prejudice?";
     gaia_expected := Some "Jane Austen" |}.

(** The judge turns the task down because the site refused access. *)
Definition denied : Verdict :=
  {| evaluation := "NO";
     reasoning := "The page shows an access denied error, so the task failed." |}.

Definition row : Testcases.Mind2WebRow :=
  {| Testcases.task_id := "t1";
     Testcases.confirmed_task := "find price";
     Testcases.website := "https://example.com";
     Testcases.reference_length := None;
     Testcases.level := None |}.

Definition other_config : list Testcases.TaskConfig :=
  [{| Testcases.cfg_name := "agent/gaia";
      Testcases.cfg_categories := ["external_agent_benchmarks"] |}].

(** Environments: both limits set, only the dataset's own, none. *)
Definition env_both (k : string) : option string :=
  if k =? "EVAL_MAX_K" then Some "3"
  else if k =? "EVAL_ONLINEMIND2WEB_LIMIT" then Some "10"
  else None.

Definition env_limit_only (k : string) : option string :=
  if k =? "EVAL_ONLINEMIND2WEB_LIMIT" then Some "10" else None.

Definition env_none (k : string) : option string := None.

(** What each task asks the judge in [world]. *)
Definition webvoyager_request : AskRequest :=
  {| question := completed_question "Find a vegetarian lasagna recipe";
     screenshot := Frames ["frame-1"; "frame-2"];
     agentReasoning := Some "Final Answer: 42";
     answer := None |}.

Definition mind2web_request : AskRequest :=
  {| question := completed_question "find price";
     screenshot := Frames ["frame-1"; "frame-2"];
     agentReasoning := Some "Final Answer: 42";
     answer := None |}.

Definition gaia_request : AskRequest :=
  {| question := expected_question (Some "Jane Austen");
     screenshot := NoScreenshot;
     agentReasoning := None;
     answer := Some "Final Answer: 42" |}.

Definition judge_down : World :=
  with_judge world (fun _ => Throw (Error "judge unavailable")).

Definition judge_denied : World := with_judge world (fun _ => Normal denied).

Definition navigation_fails : World :=
  with_goto world (fun _ => Throw (Error "net::ERR_NAME_NOT_RESOLVED")).

Definition budget (value : string) : World :=
  with_env world "AGENT_EVAL_MAX_STEPS" value.

End Samples.

(** ** Further sample worlds *)

Module Scenarios.
Import Eval Tasks.

Definition broken_agent : Agent :=
  {| setScreenshotCollector := true;
     execute := fun _ _ => Throw (Error "agent crashed") |}.

(** A world whose agent throws when executed. *)
Definition agent_fails : World :=
  {| process_env := process_env Samples.world;
     modelToAgentProviderMap := modelToAgentProviderMap Samples.world;
     JSON_stringify := JSON_stringify Samples.world;
     Date_now := Date_now Samples.world;
     page_goto := page_goto Samples.world;
     page_title := page_title Samples.world;
     loadApiKeyFromEnv := loadApiKeyFromEnv Samples.world;
     stagehand_agent := fun _ => Normal broken_agent;
     captures := captures Samples.world;
     evaluator_ask := evaluator_ask Samples.world;
     logger_getLogs := logger_getLogs Samples.world |}.

Definition silent_agent : Agent :=
  {| setScreenshotCollector := false;
     execute := fun _ _ => Normal {| message := None |} |}.

(** A world whose agent ends without a message. *)
Definition agent_silent : World :=
  {| process_env := process_env Samples.world;
     modelToAgentProviderMap := modelToAgentProviderMap Samples.world;
     JSON_stringify := JSON_stringify Samples.world;
     Date_now := Date_now Samples.world;
     page_goto := page_goto Samples.world;
     page_title := page_title Samples.world;
     loadApiKeyFromEnv := loadApiKeyFromEnv Samples.world;
     stagehand_agent := fun _ => Normal silent_agent;
     captures := captures Samples.world;
     evaluator_ask := evaluator_ask Samples.world;
     logger_getLogs := logger_getLogs Samples.world |}.

(** What [onlineMind2Web] asks the judge in that world. *)
Definition silent_request : AskRequest :=
  {| question := completed_question "find price";
     screenshot := Frames ["frame-1"; "frame-2"];
     agentReasoning := Some no_reasoning;
     answer := None |}.

(** The configuration the tasks create their agent with in these worlds. *)
Definition config : AgentConfig :=
  {| cfg_model := "computer-use-preview";
     cfg_provider := Registered "openai";
     cfg_instructions := agent_instructions "Example Domain";
     cfg_apiKey := Some "sk-test" |}.

Definition webvoyager_args : TaskArgs WebVoyagerParams :=
  Samples.args "computer-use-preview" (Some Samples.webvoyager_params).

Definition mind2web_args : TaskArgs Mind2WebParams :=
  Samples.args "computer-use-preview" (Some Samples.mind2web_params).

Definition gaia_args : TaskArgs GaiaParams :=
  Samples.args "computer-use-preview" (Some Samples.gaia_params).

(** A GAIA row without the expected answer. *)
Definition gaia_params_open : GaiaParams :=
  {| gaia_id := Some "g2";
     gaia_level := None;
     gaia_web := Some "https://www.wikipedia.org/";
     gaia_ques := Some "Who wrote Pride and Prejudice?";
     gaia_expected := None |}.

(** A task configuration with two entries for the task of the builder. *)
Definition mind2web_entry : Testcases.TaskConfig :=
  {| Testcases.cfg_name := "agent/onlineMind2Web";
     Testcases.cfg_categories := ["external_agent_benchmarks"; "agent"] |}.

Definition shadowed_entry : Testcases.TaskConfig :=
  {| Testcases.cfg_name := "agent/onlineMind2Web";
     Testcases.cfg_categories := ["ignored"] |}.

Definition layered_config : list Testcases.TaskConfig :=
  (Samples.other_config ++ [mind2web_entry; shadowed_entry])%list.

(** A row whose website is the empty string. *)
Definition blank_row : Testcases.Mind2WebRow :=
  {| Testcases.task_id := "t2";
     Testcases.confirmed_task := "find price";
     Testcases.website := "";
     Testcases.reference_length := None;
     Testcases.level := None |}.

(** The arguments a runner calls a task with for a test case. *)
Definition args_of (tc : Testcases.Testcase) : TaskArgs Mind2WebParams :=
  {| debugUrl := "https://debug.example/1";
     sessionUrl := "https://session.example/1";
     modelName := input_modelName (Testcases.input tc);
     input := Some (Testcases.input tc) |}.

(** A parsed dataset line with more than the fields of a row. *)
Definition parsed_row : Dataset.Json :=
  Dataset.JObject
    [("task_id", Dataset.JString "t1");
     ("confirmed_task", Dataset.JString "find price");
     ("website", Dataset.JString "");
     ("level", Dataset.JString "easy")].

(** What the judge of [Samples.world] answers. *)
Definition yes : Verdict :=
  {| evaluation := "YES"; reasoning := "task completed" |}.

End Scenarios.

(** ** Initialising a session: [initStagehand] *)

Module Init.

(** A value held in a configuration object.  Objects and functions of
    the program that are only passed along (the LLM client, the bound
    log function) are handles. *)
#[local] Unset Elimination Schemes.
Inductive Value : Type :=
| VUndefined
| VBool (b : bool)
| VNumber (n : JS.number)
| VString (s : string)
| VObject (fields : list (string * Value))
| VHandle (name : string).
#[local] Set Elimination Schemes.

(** An object, as the list of the assignments to its properties in the
    order they are made: a later assignment of a key replaces an earlier
    one. *)
Definition Obj : Type := list (string * Value).

(** The own property [key] of an object, if it has one. *)
Fixpoint lookup (o : Obj) (key : string) : option Value :=
  match o with
  | [] => None
  | (k, v) :: rest =>
      match lookup rest key with
      | Some later => Some later
      | None => if k =? key then Some v else None
      end
  end.

(** [o.key] *)
Definition get (o : Obj) (key : string) : Value :=
  match lookup o key with
  | Some v => v
  | None => VUndefined
  end.

(** [{ ...o, ...src }], where [src] may be [undefined]. *)
Definition spread (o : Obj) (src : option Obj) : Obj :=
  match src with
  | Some fields => (o ++ fields)%list
  | None => o
  end.

(** A possibly undefined string or number as a value. *)
Definition of_string (v : option string) : Value :=
  match v with
  | Some s => VString s
  | None => VUndefined
  end.

Definition of_number (v : option JS.number) : Value :=
  match v with
  | Some n => VNumber n
  | None => VUndefined
  end.

(** What [initStagehand] reads from outside: the environment variables,
    the values [env] and [enableCaching] of [./env], the registry of
    agent providers, and the session it creates. *)
Record World : Type := {
  process_env : string -> option string;
  env : string;
  enableCaching : bool;
  modelToAgentProviderMap : list (string * string);
  new_Stagehand : Obj -> Eval.Completion unit;
  logger_init : Eval.Completion unit;
  stagehand_init : Eval.Completion (string * string);
  setDefaultNavigationTimeout : Z -> Eval.Completion unit;
  page_title : Eval.Completion string;
  stagehand_agent :
    option (string * Eval.Provider * string) -> Eval.Completion string;
}.

(** [process.env.USE_API === "true"] *)
Definition useAPI (w : World) : bool :=
  match process_env w "USE_API" with
  | Some s => s =? "true"
  | None => false
  end.

Definition BaseStagehandConfig (w : World) : Obj :=
  [("env", VString (env w));
   ("apiKey", of_string (process_env w "BROWSERBASE_API_KEY"));
   ("projectId", of_string (process_env w "BROWSERBASE_PROJECT_ID"));
   ("useAPI", VBool (useAPI w));
   ("verbose", VNumber (JS.num 2));
   ("debugDom", VBool true);
   ("headless", VBool false);
   ("enableCaching", VBool (enableCaching w));
   ("domSettleTimeoutMs", VNumber (JS.num 60000));
   ("disablePino", VBool true);
   ("selfHeal", VBool true);
   ("modelName", VString "google/gemini-2.5-flash");
   ("modelClientOptions",
    VObject [("apiKey", of_string (process_env w "GEMINI_API_KEY"))])].

(** The argument of [initStagehand], but for the logger, which is the
    handle ["logger"]. *)
Record Args : Type := {
  llmClient : option string;
  modelClientOptions : option string;
  domSettleTimeoutMs : option JS.number;
  configOverrides : option Obj;
  actTimeoutMs : option JS.number;
  modelName : string;
}.

(** [domSettleTimeoutMs && { domSettleTimeoutMs }]: an object to spread
    when the number is truthy, and otherwise a value that spreads to
    nothing. *)
Definition settle_override (v : option JS.number) : option Obj :=
  match v with
  | Some n => if JS.truthy n then Some [("domSettleTimeoutMs", VNumber n)] else None
  | None => None
  end.

(** [typeof configOverrides?.experimental === "boolean"
     ? configOverrides.experimental : !BaseStagehandConfig.useAPI] *)
Definition experimental (w : World) (overrides : option Obj) : Value :=
  match overrides with
  | Some o =>
      match get o "experimental" with
      | VBool b => VBool b
      | _ => VBool (negb (useAPI w))
      end
  | None => VBool (negb (useAPI w))
  end.

Definition browserbaseSessionCreateParams (w : World) : Value :=
  VObject
    [("projectId", of_string (process_env w "BROWSERBASE_PROJECT_ID"));
     ("browserSettings",
      VObject
        [("enablePdfViewer", VBool true);
         ("viewport",
          VObject [("width", VNumber (JS.num 1288));
                   ("height", VNumber (JS.num 711))])])].

(** The configuration [initStagehand] builds, key by key. *)
Definition config_of (w : World) (a : Args) : Obj :=
  let c := spread [] (Some (BaseStagehandConfig w)) in
  let c := (c ++ [("modelClientOptions",
                   match modelClientOptions a with
                   | Some key => VObject [("apiKey", VString key)]
                   | None => VUndefined
                   end)])%list in
  let c := (c ++ [("llmClient",
                   match llmClient a with
                   | Some h => VHandle h
                   | None => VUndefined
                   end)])%list in
  let c := spread c (settle_override (domSettleTimeoutMs a)) in
  let c := (c ++ [("actTimeoutMs", of_number (actTimeoutMs a))])%list in
  let c := (c ++ [("modelName", VString (modelName a))])%list in
  let c := (c ++ [("experimental", experimental w (configOverrides a))])%list in
  let c := (c ++ [("browserbaseSessionCreateParams",
                   browserbaseSessionCreateParams w)])%list in
  let c := spread c (configOverrides a) in
  (c ++ [("logger", VHandle "logger.log")])%list.

(** The calls of [initStagehand] that leave it. *)
Inductive Event : Type :=
| NewStagehand (config : Obj)
| LoggerInit
| StagehandInit
| SetDefaultNavigationTimeout (ms : Z)
| Title
| CreateAgent (agentConfig : option (string * Eval.Provider * string))
| ConsoleError (label : string) (e : Eval.Thrown).

Definition Trace : Type := list Event.

Definition M (A : Type) : Type := Trace -> Trace * Eval.Completion A.

Definition ret {A} (a : A) : M A := fun t => (t, Eval.Normal a).

Definition bind {A B} (m : M A) (k : A -> M B) : M B :=
  fun t =>
    match m t with
    | (t', Eval.Normal a) => k a t'
    | (t', Eval.Throw e) => (t', Eval.Throw e)
    end.

Definition call {A} (ev : Event) (answer : Eval.Completion A) : M A :=
  fun t => ((t ++ [ev])%list, answer).

Definition try_catch {A} (body : M A) (handler : Eval.Thrown -> M A) : M A :=
  fun t =>
    match body t with
    | (t', Eval.Throw e) => handler e t'
    | done => done
    end.

Local Notation "x <- m ;; k" := (bind m (fun x => k))
  (at level 61, m at next level, right associativity).
Local Notation "m ;;; k" := (bind m (fun _ => k))
  (at level 61, right associativity).

Definition agent_instructions (title : string) : string :=
  Tasks.agent_instructions title
  ++ " Simply perform the task provided, do not overthink or overdo it. The user trusts you to complete the task without any additional instructions, or answering any questions.".

(** What [initStagehand] resolves to, but for the handles of the
    session and the logger. *)
Record Result : Type := {
  stagehandConfig : Obj;
  debugUrl : string;
  sessionUrl : string;
  res_modelName : string;
  agent : string;
}.

Definition initStagehand (w : World) (a : Args) : M Result :=
  let config := config_of w a in
  try_catch
    (call (NewStagehand config) (new_Stagehand w config) ;;;
     call LoggerInit (logger_init w) ;;;
     urls <- call StagehandInit (stagehand_init w) ;;
     call (SetDefaultNavigationTimeout 60000)
          (setDefaultNavigationTimeout w 60000) ;;;
     agentConfig <-
       match Tasks.provider_of (modelToAgentProviderMap w) (modelName a) with
       | Some provider =>
           title <- call Title (page_title w) ;;
           ret (Some (modelName a, provider, agent_instructions title))
       | None => ret None
       end ;;
     agent <- call (CreateAgent agentConfig) (stagehand_agent w agentConfig) ;;
     ret {| stagehandConfig := config;
            debugUrl := fst urls;
            sessionUrl := snd urls;
            res_modelName := modelName a;
            agent := agent |})
    (fun error =>
       call (ConsoleError "Error initializing stagehand:" error) (Eval.Normal tt) ;;;
       fun t => (t, Eval.Throw error)).

Definition run {A} (m : M A) : Trace * Eval.Completion A := m [].

(** The property [key] of [configOverrides], if there is one. *)
Definition override (a : Args) (key : string) : option Value :=
  match configOverrides a with
  | Some o => lookup o key
  | None => None
  end.

(** Kinds of events. *)
Definition is_new (ev : Event) : bool :=
  match ev with NewStagehand _ => true | _ => false end.

Definition is_init (ev : Event) : bool :=
  match ev with StagehandInit => true | _ => false end.

Definition is_logger_init (ev : Event) : bool :=
  match ev with LoggerInit => true | _ => false end.

Definition is_timeout (ev : Event) : bool :=
  match ev with SetDefaultNavigationTimeout _ => true | _ => false end.

Definition is_title (ev : Event) : bool :=
  match ev with Title => true | _ => false end.

Definition is_create (ev : Event) : bool :=
  match ev with CreateAgent _ => true | _ => false end.


(** A sample session. *)
Definition sample_world : World :=
  {| process_env := fun k => if k =? "USE_API" then Some "true" else None;
     env := "LOCAL";
     enableCaching := false;
     modelToAgentProviderMap := Samples.registry;
     new_Stagehand := fun _ => Eval.Normal tt;
     logger_init := Eval.Normal tt;
     stagehand_init := Eval.Normal ("https://debug.example/1", "https://session.example/1");
     setDefaultNavigationTimeout := fun _ => Eval.Normal tt;
     page_title := Eval.Normal "about:blank";
     stagehand_agent := fun _ => Eval.Normal "agent#1" |}.

Definition sample_args : Args :=
  {| llmClient := None;
     modelClientOptions := None;
     domSettleTimeoutMs := Some (JS.num 0);
     configOverrides :=
       Some [("headless", VBool true); ("logger", VHandle "console.log")];
     actTimeoutMs := None;
     modelName := "computer-use-preview" |}.

(** Arguments whose model name the registry only inherits from
    [Object.prototype]. *)
Definition inherited_args : Args :=
  {| llmClient := None;
     modelClientOptions := None;
     domSettleTimeoutMs := None;
     configOverrides := None;
     actTimeoutMs := None;
     modelName := "toString" |}.


End Init.

(** * Properties *)

Local Open Scope nat_scope.
Local Open Scope list_scope.

(** ** The screenshot buffer *)

Section CollectorFacts.

Import ScreenshotCollector.

Variable Frame : Type.
Implicit Types (c : t Frame) (f : Frame) (frames : list Frame).

Lemma capacity_step c (o : Op Frame) : maxScreenshots (step c o) = maxScreenshots c.
Proof.
  destruct o as [|[f|]|]; cbn; unfold start, capture, stop;
    destruct (phase c); reflexivity.
Qed.

Lemma capacity_run (ops : list (Op Frame)) c :
  maxScreenshots (run c ops) = maxScreenshots c.
Proof.
  revert c; induction ops as [|o ops IH]; intro c; [reflexivity|].
  cbn. unfold run in IH. rewrite IH. apply capacity_step.
Qed.

(** Pushing keeps a bounded buffer bounded. *)
Lemma push_bounded c f :
  length (screenshots c) <= maxScreenshots c ->
  length (screenshots (push c f)) <= maxScreenshots c.
Proof.
  intro H. unfold push. cbn [screenshots maxScreenshots].
  destruct (Nat.ltb_spec (maxScreenshots c) (length (screenshots c ++ [f]))) as [Hlt|Hge].
  - destruct (screenshots c ++ [f])%list eqn:E.
    + cbn. lia.
    + assert (L : length (screenshots c ++ [f]) = S (length l)) by (rewrite E; reflexivity).
      rewrite length_app in L. cbn in L. cbn. lia.
  - exact Hge.
Qed.

Lemma step_bounded c (o : Op Frame) :
  length (screenshots c) <= maxScreenshots c ->
  length (screenshots (step c o)) <= maxScreenshots (step c o).
Proof.
  intro H. rewrite capacity_step.
  destruct o as [|[f|]|]; cbn [step]; unfold start, capture, stop;
    destruct (phase c); cbn [fst screenshots]; auto using push_bounded.
Qed.

(** The invariant: whatever reaches a collector, and in whatever order,
    its buffer never holds more than [maxScreenshots] frames. *)
Lemma buffer_bounded (n : nat) (ops : list (Op Frame)) :
  length (screenshots (run (new Frame n) ops)) <= n.
Proof.
  assert (G : forall ops c, length (screenshots c) <= maxScreenshots c ->
              length (screenshots (run c ops)) <= maxScreenshots c).
  { clear ops. induction ops as [|o ops IH]; intros c H; [exact H|].
    cbn. rewrite <- (capacity_step c o). apply IH. now apply step_bounded. }
  apply (G ops (new Frame n)). cbn. lia.
Qed.

Lemma captured_snoc n frames f :
  captured n (frames ++ [f]) = push (captured n frames) f.
Proof.
  unfold captured. rewrite map_app, fold_left_app. cbn [map fold_left].
  set (c := fold_left capture (map Some frames) (start (new Frame n))).
  assert (P : phase c = Running).
  { subst c. generalize (eq_refl : phase (start (new Frame n)) = Running).
    generalize (start (new Frame n)).
    induction frames as [|x xs IH]; intros c0 H0; [exact H0|].
    cbn. apply IH. unfold capture. rewrite H0. exact H0. }
  unfold capture. now rewrite P.
Qed.

Lemma captured_capacity n frames : maxScreenshots (captured n frames) = n.
Proof.
  induction frames as [|f frames IH] using rev_ind; [reflexivity|].
  rewrite captured_snoc. exact IH.
Qed.

(** The buffer of a running collector is the window of the last
    [maxScreenshots] frames captured, oldest first. *)
Lemma captured_window n frames :
  screenshots (captured n frames) = skipn (length frames - n) frames.
Proof.
  induction frames as [|f frames IH] using rev_ind; [reflexivity|].
  rewrite captured_snoc. unfold push. cbn [screenshots].
  rewrite captured_capacity, IH, !length_app, length_skipn. cbn [length].
  destruct (Nat.ltb_spec n (length frames - (length frames - n) + 1)) as [Hlt|Hge].
  - assert (Hn : n <= length frames) by lia.
    replace (length frames + 1 - n) with (1 + (length frames - n)) by lia.
    rewrite <- skipn_skipn. cbn [skipn].
    rewrite skipn_app.
    replace (length frames - n - length frames) with 0 by lia.
    reflexivity.
  - replace (length frames - n) with 0 by lia.
    replace (length frames + 1 - n) with 0 by lia. reflexivity.
Qed.

(** [stop()] without a [start()] before it returns an empty buffer. *)
Lemma stop_before_start (n : nat) : snd (stop (new Frame n)) = [].
Proof. reflexivity. Qed.

(** A second [stop()] returns what the first returned and changes
    nothing. *)
Lemma stop_twice c :
  stop (fst (stop c)) = (fst (stop c), snd (stop c)).
Proof.
  unfold stop. destruct (phase c) eqn:E; cbn [fst snd phase screenshots];
    rewrite ?E; reflexivity.
Qed.

End CollectorFacts.

(** C5.  For every capacity [n] and every sequence of more than [n]
    captured frames, [stop()] returns exactly [n] frames, they are the
    last [n] frames captured, in capture order; at no point of the
    capture did the buffer hold more than [n] frames, and no sequence of
    starts, capture attempts and stops makes it hold more. *)
Theorem collector_keeps_last_frames :
  forall (Frame : Type) (n : nat) (frames : list Frame),
    n < length frames ->
    let returned := snd (ScreenshotCollector.stop (ScreenshotCollector.captured n frames)) in
    returned = skipn (length frames - n) frames
    /\ length returned = n
    /\ (forall k,
          length (ScreenshotCollector.screenshots
                    (ScreenshotCollector.captured n (firstn k frames))) <= n)
    /\ (forall ops,
          length (ScreenshotCollector.screenshots
                    (ScreenshotCollector.run (ScreenshotCollector.new Frame n) ops))
          <= n).
Proof.
  intros Frame n frames Hlt returned.
  assert (R : returned = skipn (length frames - n) frames).
  { subst returned. unfold ScreenshotCollector.stop.
    destruct (ScreenshotCollector.phase _); cbn; apply captured_window. }
  split; [exact R|]. split.
  - rewrite R, length_skipn. lia.
  - split.
    + intro k. rewrite captured_window, length_skipn. lia.
    + intro ops. apply buffer_bounded.
Qed.

Lemma collector_keeps_last_frames_witness :
  3 < length ["a"; "b"; "c"; "d"]
  /\ snd (ScreenshotCollector.stop
            (ScreenshotCollector.captured 3 ["a"; "b"; "c"; "d"]))
     = ["b"; "c"; "d"].
Proof.
  split; [cbn; lia|].
  exact (proj1 (collector_keeps_last_frames string 3 ["a"; "b"; "c"; "d"]
                  ltac:(cbn; lia))).
Defined.

(** ** The test-case builder *)

Section BuilderFacts.

Import Testcases.

Variable config : list TaskConfig.

(** The inner loop pushes one test case per row, in row order. *)
Lemma inner_loop model rows acc :
  fold_left (fun all row => all ++ [testcase config model row]) rows acc
  = acc ++ map (testcase config model) rows.
Proof.
  revert acc; induction rows as [|r rows IH]; intro acc; cbn.
  - now rewrite app_nil_r.
  - rewrite IH, <- app_assoc. reflexivity.
Qed.

(** The two loops build one group of test cases per model, in model
    order. *)
Lemma buildTestcases_groups rows models :
  buildTestcases config rows models
  = flat_map (fun model => map (testcase config model) rows) models.
Proof.
  unfold buildTestcases.
  assert (G : forall acc,
             fold_left
               (fun all model =>
                  fold_left (fun all row => all ++ [testcase config model row])
                            rows all)
               models acc
             = acc ++ flat_map (fun model => map (testcase config model) rows) models).
  { induction models as [|m ms IH]; intro acc; cbn.
    - now rewrite app_nil_r.
    - rewrite IH, inner_loop, <- app_assoc. reflexivity. }
  apply (G []).
Qed.

Lemma buildTestcases_In rows models tc :
  In tc (buildTestcases config rows models) ->
  exists model row,
    In model models /\ In row rows /\ tc = testcase config model row.
Proof.
  rewrite buildTestcases_groups, in_flat_map.
  intros (m & Hm & Htc). apply in_map_iff in Htc as (r & <- & Hr).
  now exists m, r.
Qed.

Lemma row_of_testcase model row :
  row_of (testcase config model row) = Some row.
Proof. destruct row; reflexivity. Qed.

End BuilderFacts.

(** C6.  The test cases built from rows and models are the cross product
    of the models with the rows, one group per model and the rows in
    their order within each group; there are [|rows| * |models|] of them;
    and no models give no test cases. *)
Theorem buildTestcases_cross_product :
  forall (config : list Testcases.TaskConfig)
         (rows : list Testcases.Mind2WebRow) (models : list string),
    map (fun tc => (Tasks.input_modelName (Testcases.input tc), Testcases.row_of tc))
        (Testcases.buildTestcases config rows models)
    = map (fun mr => (fst mr, Some (snd mr))) (list_prod models rows)
    /\ length (Testcases.buildTestcases config rows models)
       = length rows * length models
    /\ Testcases.buildTestcases config rows [] = [].
Proof.
  intros config rows models.
  assert (P : map (fun tc => (Tasks.input_modelName (Testcases.input tc),
                              Testcases.row_of tc))
                  (Testcases.buildTestcases config rows models)
              = map (fun mr => (fst mr, Some (snd mr))) (list_prod models rows)).
  { rewrite buildTestcases_groups.
    induction models as [|m ms IH]; [reflexivity|].
    cbn [flat_map list_prod]. rewrite !map_app, IH. f_equal.
    rewrite !map_map. apply map_ext. intro r. cbn [fst snd].
    now rewrite row_of_testcase. }
  split; [exact P|]. split; [|reflexivity].
  apply (f_equal (@length _)) in P.
  rewrite !length_map, length_prod in P. lia.
Qed.

(** C7.  A test case whose task name has no entry in [tasksConfig] gets
    the category ["agent"] (and no categories); building it cannot
    fail, the builder being a total function. *)
Theorem category_defaults_to_agent :
  forall (config : list Testcases.TaskConfig)
         (rows : list Testcases.Mind2WebRow) (models : list string)
         (tc : Testcases.Testcase),
    In tc (Testcases.buildTestcases config rows models) ->
    (forall t, In t config -> Testcases.cfg_name t <> Testcases.name tc) ->
    Testcases.category (Testcases.metadata tc) = "agent"%string
    /\ Testcases.categories (Testcases.metadata tc) = [].
Proof.
  intros config rows models tc Hin Hno.
  apply buildTestcases_In in Hin as (m & r & _ & _ & ->).
  cbn [Testcases.testcase Testcases.metadata Testcases.category
       Testcases.categories Tasks.input_name Testcases.name] in *.
  assert (E : Testcases.taskCategories config "agent/onlineMind2Web" = []).
  { unfold Testcases.taskCategories.
    destruct (find _ config) as [t|] eqn:F; [|reflexivity].
    apply find_some in F as [Ht Hname].
    apply String.eqb_eq in Hname. now apply Hno in Ht. }
  rewrite E. split; reflexivity.
Qed.

Lemma category_defaults_to_agent_witness :
  Testcases.category
    (Testcases.metadata (Testcases.testcase Samples.other_config "m1" Samples.row))
  = "agent"%string.
Proof.
  refine (proj1 (category_defaults_to_agent Samples.other_config [Samples.row] ["m1"%string]
                   (Testcases.testcase Samples.other_config "m1" Samples.row) _ _)).
  - left; reflexivity.
  - intros t [<-|[]]; discriminate.
Defined.

(** The whole builder is the two loops over the sampled rows. *)
Lemma buildOnlineMind2WebTestcases_length (env : Testcases.Env) (models : list string) :
  exists rows,
    Testcases.buildOnlineMind2WebTestcases env models
    = Testcases.buildTestcases (Testcases.tasksConfig env) rows models
    /\ length (Testcases.buildOnlineMind2WebTestcases env models)
       = length rows * length models.
Proof.
  eexists. split; [reflexivity|].
  unfold Testcases.buildOnlineMind2WebTestcases.
  rewrite buildTestcases_groups.
  induction models as [|m ms IH]; cbn [flat_map length]; [lia|].
  rewrite length_app, length_map, IH. lia.
Qed.

(** The scenario of one row and one supported model: exactly one test
    case, tagged with the model and the dataset, expected to succeed. *)
Example one_row_one_model :
  exists tc,
    Testcases.buildTestcases Samples.other_config [Samples.row] ["m1"%string] = [tc]
    /\ Testcases.tags tc = ["m1"; "mind2web"]%string
    /\ Testcases.expected tc = true.
Proof. eexists; repeat split; reflexivity. Qed.

(** C9.  [maxCases] is [Number(EVAL_MAX_K)] whenever [EVAL_MAX_K] is set,
    whatever [EVAL_ONLINEMIND2WEB_LIMIT] is; it is
    [Number(EVAL_ONLINEMIND2WEB_LIMIT)] when only that one is set; it is
    25 when neither is.  A variable is set when the program's test of it
    ([process.env.X ? ... : ...]) succeeds: it is defined and not empty. *)
Theorem maxCases_precedence :
  forall (env : string -> option string),
    (JS.truthy_str (env "EVAL_MAX_K"%string) = true ->
     Testcases.maxCases env = JS.Number (env "EVAL_MAX_K"%string))
    /\ (JS.truthy_str (env "EVAL_MAX_K"%string) = false ->
        JS.truthy_str (env "EVAL_ONLINEMIND2WEB_LIMIT"%string) = true ->
        Testcases.maxCases env = JS.Number (env "EVAL_ONLINEMIND2WEB_LIMIT"%string))
    /\ (JS.truthy_str (env "EVAL_MAX_K"%string) = false ->
        JS.truthy_str (env "EVAL_ONLINEMIND2WEB_LIMIT"%string) = false ->
        Testcases.maxCases env = JS.num 25).
Proof.
  intro env. unfold Testcases.maxCases.
  repeat split; intros; repeat match goal with H : _ = _ |- _ => rewrite H end;
    reflexivity.
Qed.

Lemma maxCases_precedence_witness :
  Testcases.maxCases Samples.env_both = JS.num 3
  /\ Testcases.maxCases Samples.env_limit_only = JS.num 10
  /\ Testcases.maxCases Samples.env_none = JS.num 25.
Proof.
  split; [|split].
  - exact (proj1 (maxCases_precedence Samples.env_both) eq_refl).
  - exact (proj1 (proj2 (maxCases_precedence Samples.env_limit_only))
             eq_refl eq_refl).
  - exact (proj2 (proj2 (maxCases_precedence Samples.env_none)) eq_refl eq_refl).
Defined.

(** ** The evaluation tasks *)

(** Unfold the monad and split on every answer of the world. *)
Ltac unfold_monad :=
  cbv beta iota zeta delta
    [Eval.bind Eval.call Eval.emit Eval.ret Eval.throw Eval.try_catch
     Eval.try_finally Tasks.now Tasks.getLogs Tasks.log_and_rethrow
     Tasks.make_agent app].

Ltac split_innermost :=
  match goal with
  | |- context [match ?x with _ => _ end] =>
      lazymatch x with
      | context [match _ with _ => _ end] => fail
      | _ => destruct x eqn:?
      end
  end.

Ltac explore := unfold_monad; repeat (split_innermost; unfold_monad).

(** Go through the events of a concrete trace. *)
Ltac in_trace H :=
  cbn [In] in H;
  repeat (destruct H as [H|H]; [try discriminate H|]);
  try contradiction;
  try (injection H as <-).

(** Find an event in a computed trace. *)
Ltac find_event := vm_compute; repeat (first [left; reflexivity | right]).

Section TaskFacts.

Import Eval Tasks.

Variable w : World.

Lemma present_none (v : option string) :
  JS.truthy_str v = false <-> present v = None.
Proof.
  destruct v as [s|]; cbn; [|tauto].
  destruct (s =? "")%string; cbn; split; congruence.
Qed.

Lemma present_some (v : option string) :
  JS.truthy_str v = true -> exists s, v = Some s /\ present v = Some s.
Proof.
  destruct v as [s|]; cbn; [|discriminate].
  destruct (s =? "")%string; cbn; [discriminate|]. now exists s.
Qed.

(** *** Missing parameters *)

Lemma webvoyager_missing (a : TaskArgs WebVoyagerParams) :
  present (field (params_of a) wv_web) = None
  \/ present (field (params_of a) wv_ques) = None ->
  run (webvoyager w a)
  = ([DateNow; GetLogs],
     Normal {| _success := false;
               error := Some ("Missing WebVoyager params (web, ques). Got: "
                              ++ JSON_stringify w _ (params_of a))%string;
               res_reasoning := None; final_answer := None;
               screenshotCount := None; task_level := None;
               execution_time := None;
               res_debugUrl := debugUrl a;
               res_sessionUrl := sessionUrl a;
               logs := logger_getLogs w [DateNow] |}).
Proof.
  intro H. unfold run, webvoyager. unfold_monad.
  destruct (present (field (params_of a) wv_web)),
           (present (field (params_of a) wv_ques));
    try (destruct H; discriminate); reflexivity.
Qed.

Lemma onlineMind2Web_missing (a : TaskArgs Mind2WebParams) :
  present (field (params_of a) m2w_website) = None
  \/ present (field (params_of a) m2w_confirmed_task) = None ->
  run (onlineMind2Web w a)
  = ([DateNow; GetLogs],
     Normal {| _success := false;
               error := Some ("Missing onlineMind2Web params (website, confirmed_task). Got: "
                              ++ JSON_stringify w _ (params_of a))%string;
               res_reasoning := None; final_answer := None;
               screenshotCount := None; task_level := None;
               execution_time := None;
               res_debugUrl := debugUrl a;
               res_sessionUrl := sessionUrl a;
               logs := logger_getLogs w [DateNow] |}).
Proof.
  intro H. unfold run, onlineMind2Web. unfold_monad.
  destruct (present (field (params_of a) m2w_website)),
           (present (field (params_of a) m2w_confirmed_task));
    try (destruct H; discriminate); reflexivity.
Qed.

Lemma gaia_missing (a : TaskArgs GaiaParams) :
  present (field (params_of a) gaia_web) = None
  \/ present (field (params_of a) gaia_ques) = None ->
  run (gaia w a)
  = ([DateNow; DateNow; GetLogs; Close],
     Normal {| _success := false;
               error := Some ("Missing GAIA params (web, ques). Got: "
                              ++ JSON_stringify w _ (params_of a))%string;
               res_reasoning := None; final_answer := None;
               screenshotCount := None; task_level := None;
               execution_time :=
                 Some (Date_now w [DateNow] - Date_now w [])%Z;
               res_debugUrl := debugUrl a;
               res_sessionUrl := sessionUrl a;
               logs := logger_getLogs w [DateNow; DateNow] |}).
Proof.
  intro H. unfold run, gaia. unfold_monad.
  destruct (present (field (params_of a) gaia_web)),
           (present (field (params_of a) gaia_ques));
    try (destruct H; discriminate); reflexivity.
Qed.

(** *** A failing judge *)

Lemma webvoyager_judge_failure (a : TaskArgs WebVoyagerParams) req e :
  In (Ask req) (trace_of (webvoyager w a)) ->
  evaluator_ask w req = Throw e ->
  outcome_of (webvoyager w a) = Throw e.
Proof.
  unfold trace_of, outcome_of, run, webvoyager.
  explore. all: cbn [fst snd]; intros HIn HJ; in_trace HIn; congruence.
Qed.

Lemma onlineMind2Web_judge_failure (a : TaskArgs Mind2WebParams) req e :
  In (Ask req) (trace_of (onlineMind2Web w a)) ->
  evaluator_ask w req = Throw e ->
  outcome_of (onlineMind2Web w a) = Throw e.
Proof.
  unfold trace_of, outcome_of, run, onlineMind2Web.
  explore. all: cbn [fst snd]; intros HIn HJ; in_trace HIn; congruence.
Qed.

Lemma gaia_judge_failure (a : TaskArgs GaiaParams) req e :
  In (Ask req) (trace_of (gaia w a)) ->
  evaluator_ask w req = Throw e ->
  outcome_of (gaia w a) = Throw e.
Proof.
  unfold trace_of, outcome_of, run, gaia.
  explore. all: cbn [fst snd]; intros HIn HJ; in_trace HIn; congruence.
Qed.

(** *** The step budget *)

Lemma webvoyager_budget (a : TaskArgs WebVoyagerParams) :
  budget_is (trace_of (webvoyager w a)) (maxSteps_or w 75).
Proof.
  unfold budget_is, trace_of, run, webvoyager.
  explore. all: cbn [fst snd]; intros i n HIn; in_trace HIn; congruence.
Qed.

Lemma onlineMind2Web_budget (a : TaskArgs Mind2WebParams) :
  budget_is (trace_of (onlineMind2Web w a)) (maxSteps_or w 80).
Proof.
  unfold budget_is, trace_of, run, onlineMind2Web.
  explore. all: cbn [fst snd]; intros i n HIn; in_trace HIn; congruence.
Qed.

Lemma gaia_budget (a : TaskArgs GaiaParams) :
  budget_is (trace_of (gaia w a)) (maxSteps_or w 50).
Proof.
  unfold budget_is, trace_of, run, gaia.
  explore. all: cbn [fst snd]; intros i n HIn; in_trace HIn; congruence.
Qed.

(** *** A model without provider *)

Lemma webvoyager_unsupported (a : TaskArgs WebVoyagerParams) web ques :
  provider_of (modelToAgentProviderMap w) (modelName a) = None ->
  present (field (params_of a) wv_web) = Some web ->
  present (field (params_of a) wv_ques) = Some ques ->
  page_goto w web = Normal tt ->
  run (webvoyager w a)
  = ([DateNow; Goto web 120000; GetLogs],
     Normal (unsupported_result w a (logger_getLogs w [DateNow; Goto web 120000]))).
Proof.
  intros Hp Hw Hq Hg. unfold run, webvoyager. unfold_monad.
  rewrite Hw, Hq, Hg, Hp. reflexivity.
Qed.

Lemma onlineMind2Web_unsupported (a : TaskArgs Mind2WebParams) web task :
  provider_of (modelToAgentProviderMap w) (modelName a) = None ->
  present (field (params_of a) m2w_website) = Some web ->
  present (field (params_of a) m2w_confirmed_task) = Some task ->
  page_goto w web = Normal tt ->
  run (onlineMind2Web w a)
  = ([DateNow; Goto web 120000; GetLogs],
     Normal (unsupported_result w a (logger_getLogs w [DateNow; Goto web 120000]))).
Proof.
  intros Hp Hw Hq Hg. unfold run, onlineMind2Web. unfold_monad.
  rewrite Hw, Hq, Hg, Hp. reflexivity.
Qed.

Lemma gaia_unsupported (a : TaskArgs GaiaParams) web ques :
  provider_of (modelToAgentProviderMap w) (modelName a) = None ->
  present (field (params_of a) gaia_web) = Some web ->
  present (field (params_of a) gaia_ques) = Some ques ->
  page_goto w web = Normal tt ->
  run (gaia w a)
  = ([DateNow; Goto web 120000; GetLogs; Close],
     Normal (unsupported_result w a (logger_getLogs w [DateNow; Goto web 120000]))).
Proof.
  intros Hp Hw Hq Hg. unfold run, gaia. unfold_monad.
  rewrite Hw, Hq, Hg, Hp. reflexivity.
Qed.

Lemma webvoyager_unsupported_never_executes (a : TaskArgs WebVoyagerParams) :
  provider_of (modelToAgentProviderMap w) (modelName a) = None ->
  never_executes (trace_of (webvoyager w a)).
Proof.
  unfold never_executes, trace_of, run, webvoyager.
  explore. all: cbn [fst snd]; intro Hp; try discriminate Hp.
  all: repeat constructor.
Qed.

Lemma onlineMind2Web_unsupported_never_executes (a : TaskArgs Mind2WebParams) :
  provider_of (modelToAgentProviderMap w) (modelName a) = None ->
  never_executes (trace_of (onlineMind2Web w a)).
Proof.
  unfold never_executes, trace_of, run, onlineMind2Web.
  explore. all: cbn [fst snd]; intro Hp; try discriminate Hp.
  all: repeat constructor.
Qed.

Lemma gaia_unsupported_never_executes (a : TaskArgs GaiaParams) :
  provider_of (modelToAgentProviderMap w) (modelName a) = None ->
  never_executes (trace_of (gaia w a)).
Proof.
  unfold never_executes, trace_of, run, gaia.
  explore. all: cbn [fst snd]; intro Hp; try discriminate Hp.
  all: repeat constructor.
Qed.

(** *** A verdict that reports denied access *)

(** [onlineMind2Web] turns a NO whose reasoning contains
    ["access denied"] into a thrown error. *)
Lemma onlineMind2Web_access_denied (a : TaskArgs Mind2WebParams) req v :
  In (Ask req) (trace_of (onlineMind2Web w a)) ->
  evaluator_ask w req = Normal v ->
  JS.includes (reasoning v) "access denied" = true ->
  evaluation v = "NO"%string ->
  outcome_of (onlineMind2Web w a) = Throw (Error "access denied").
Proof.
  unfold trace_of, outcome_of, run, onlineMind2Web.
  explore.
  all: cbn [fst snd]; intros HIn HJ Hinc Hno; in_trace HIn; try congruence.
  all: rewrite HJ in *;
    match goal with H : Normal _ = Normal _ |- _ => injection H as -> end;
    rewrite Hinc, Hno in *; discriminate.
Qed.

(** [webvoyager] returns whatever verdict the judge gave. *)
Lemma webvoyager_returns_verdict (a : TaskArgs WebVoyagerParams) req v :
  In (Ask req) (trace_of (webvoyager w a)) ->
  evaluator_ask w req = Normal v ->
  exists r,
    outcome_of (webvoyager w a) = Normal r
    /\ _success r = (evaluation v =? "YES")%string
    /\ res_reasoning r = Some (reasoning v).
Proof.
  unfold trace_of, outcome_of, run, webvoyager.
  explore.
  all: cbn [fst snd]; intros HIn HJ; in_trace HIn; try congruence.
  all: rewrite HJ in *;
    match goal with H : Normal _ = Normal _ |- _ => injection H as -> end;
    eexists; repeat split; reflexivity.
Qed.

(** *** The agent is run *)

Lemma webvoyager_executes (a : TaskArgs WebVoyagerParams) web ques :
  present (field (params_of a) wv_web) = Some web ->
  present (field (params_of a) wv_ques) = Some ques ->
  ready w (modelName a) web ->
  In (Execute ques (maxSteps_or w 75)) (trace_of (webvoyager w a)).
Proof.
  intros Hw Hq (Hg & p & title & key & ag & Hp & Ht & Hk & Ha).
  unfold trace_of, run, webvoyager. unfold_monad.
  rewrite Hw, Hq, Hg, Hp, Ht, Hk, Ha. explore.
  all: cbn [fst In]; repeat (first [left; reflexivity | right]).
Qed.

Lemma onlineMind2Web_executes (a : TaskArgs Mind2WebParams) web task :
  present (field (params_of a) m2w_website) = Some web ->
  present (field (params_of a) m2w_confirmed_task) = Some task ->
  ready w (modelName a) web ->
  In (Execute task (maxSteps_or w 80)) (trace_of (onlineMind2Web w a)).
Proof.
  intros Hw Hq (Hg & p & title & key & ag & Hp & Ht & Hk & Ha).
  unfold trace_of, run, onlineMind2Web. unfold_monad.
  rewrite Hw, Hq, Hg, Hp, Ht, Hk, Ha. explore.
  all: cbn [fst In]; repeat (first [left; reflexivity | right]).
Qed.

Lemma gaia_executes (a : TaskArgs GaiaParams) web ques :
  present (field (params_of a) gaia_web) = Some web ->
  present (field (params_of a) gaia_ques) = Some ques ->
  ready w (modelName a) web ->
  In (Execute ques (maxSteps_or w 50)) (trace_of (gaia w a)).
Proof.
  intros Hw Hq (Hg & p & title & key & ag & Hp & Ht & Hk & Ha).
  unfold trace_of, run, gaia. unfold_monad.
  rewrite Hw, Hq, Hg, Hp, Ht, Hk, Ha. explore.
  all: cbn [fst In]; repeat (first [left; reflexivity | right]).
Qed.

(** Each task runs its agent with [Number(AGENT_EVAL_MAX_STEPS) || d]. *)
Lemma tasks_run_agent_with_budget :
  runs_agent_with webvoyager wv_web wv_ques w (maxSteps_or w 75)
  /\ runs_agent_with onlineMind2Web m2w_website m2w_confirmed_task w
       (maxSteps_or w 80)
  /\ runs_agent_with gaia gaia_web gaia_ques w (maxSteps_or w 50).
Proof.
  split; [|split]; intro a; split.
  - apply webvoyager_budget.
  - apply webvoyager_executes.
  - apply onlineMind2Web_budget.
  - apply onlineMind2Web_executes.
  - apply gaia_budget.
  - apply gaia_executes.
Qed.

End TaskFacts.

(** C1.  When a required parameter is missing ([web] or [ques] for
    [webvoyager] and [gaia], [website] or [confirmed_task] for
    [onlineMind2Web]; missing as the tasks test it, undefined or empty),
    the task returns a result with [_success: false] and the error
    message of its dataset, and its run neither navigates the page nor
    creates, wires or executes the agent. *)
Theorem missing_params_fail_before_any_call :
  forall w : Eval.World,
    (forall a : Tasks.TaskArgs Tasks.WebVoyagerParams,
        JS.truthy_str (Tasks.field (Tasks.params_of a) Tasks.wv_web) = false
        \/ JS.truthy_str (Tasks.field (Tasks.params_of a) Tasks.wv_ques) = false ->
        Tasks.failure_result (Eval.outcome_of (Tasks.webvoyager w a))
          ("Missing WebVoyager params (web, ques). Got: "
           ++ Eval.JSON_stringify w _ (Tasks.params_of a))%string
        /\ Tasks.leaves_page_and_agent_alone (Eval.trace_of (Tasks.webvoyager w a)))
    /\ (forall a : Tasks.TaskArgs Tasks.Mind2WebParams,
          JS.truthy_str (Tasks.field (Tasks.params_of a) Tasks.m2w_website) = false
          \/ JS.truthy_str (Tasks.field (Tasks.params_of a) Tasks.m2w_confirmed_task)
             = false ->
          Tasks.failure_result (Eval.outcome_of (Tasks.onlineMind2Web w a))
            ("Missing onlineMind2Web params (website, confirmed_task). Got: "
             ++ Eval.JSON_stringify w _ (Tasks.params_of a))%string
          /\ Tasks.leaves_page_and_agent_alone
               (Eval.trace_of (Tasks.onlineMind2Web w a)))
    /\ (forall a : Tasks.TaskArgs Tasks.GaiaParams,
          JS.truthy_str (Tasks.field (Tasks.params_of a) Tasks.gaia_web) = false
          \/ JS.truthy_str (Tasks.field (Tasks.params_of a) Tasks.gaia_ques) = false ->
          Tasks.failure_result (Eval.outcome_of (Tasks.gaia w a))
            ("Missing GAIA params (web, ques). Got: "
             ++ Eval.JSON_stringify w _ (Tasks.params_of a))%string
          /\ Tasks.leaves_page_and_agent_alone (Eval.trace_of (Tasks.gaia w a))).
Proof.
  intro w. split; [|split]; intros a H; rewrite !present_none in H.
  - unfold Eval.outcome_of, Eval.trace_of. rewrite (webvoyager_missing w a H). split.
    + eexists; repeat split; reflexivity.
    + repeat constructor.
  - unfold Eval.outcome_of, Eval.trace_of. rewrite (onlineMind2Web_missing w a H). split.
    + eexists; repeat split; reflexivity.
    + repeat constructor.
  - unfold Eval.outcome_of, Eval.trace_of. rewrite (gaia_missing w a H). split.
    + eexists; repeat split; reflexivity.
    + repeat constructor.
Qed.

Lemma missing_params_fail_before_any_call_witness :
  Tasks.failure_result
    (Eval.outcome_of
       (Tasks.webvoyager Samples.world
          (Samples.args "computer-use-preview" (@None Tasks.WebVoyagerParams))))
    "Missing WebVoyager params (web, ques). Got: {}"
  /\ Tasks.failure_result
       (Eval.outcome_of
          (Tasks.onlineMind2Web Samples.world
             (Samples.args "computer-use-preview" (@None Tasks.Mind2WebParams))))
       "Missing onlineMind2Web params (website, confirmed_task). Got: {}"
  /\ Tasks.failure_result
       (Eval.outcome_of
          (Tasks.gaia Samples.world
             (Samples.args "computer-use-preview" (@None Tasks.GaiaParams))))
       "Missing GAIA params (web, ques). Got: {}".
Proof.
  pose proof (missing_params_fail_before_any_call Samples.world) as (Hw & Hm & Hg).
  split; [|split].
  - exact (proj1 (Hw (Samples.args "computer-use-preview" None) (or_introl eq_refl))).
  - exact (proj1 (Hm (Samples.args "computer-use-preview" None) (or_introl eq_refl))).
  - exact (proj1 (Hg (Samples.args "computer-use-preview" None) (or_introl eq_refl))).
Defined.

(** C2, at a run that shows the defect.  The judge answers NO and its
    reasoning contains ["access denied"]; [webvoyager] returns the plain
    negative result, where [onlineMind2Web] on the same verdict throws
    [Error("access denied")]. *)
Theorem webvoyager_access_denied_is_plain_verdict :
  JS.includes (Eval.reasoning Samples.denied) "access denied" = true
  /\ Eval.evaluation Samples.denied = "NO"%string
  /\ (exists r,
        Eval.outcome_of
          (Tasks.webvoyager Samples.judge_denied
             (Samples.args "computer-use-preview" (Some Samples.webvoyager_params)))
        = Eval.Normal r
        /\ Tasks._success r = false
        /\ Tasks.res_reasoning r = Some (Eval.reasoning Samples.denied))
  /\ Eval.outcome_of
       (Tasks.onlineMind2Web Samples.judge_denied
          (Samples.args "computer-use-preview" (Some Samples.mind2web_params)))
     = Eval.Throw (Eval.Error "access denied").
Proof.
  split; [reflexivity|]. split; [reflexivity|]. split.
  - eexists. split; [vm_compute; reflexivity|]. split; reflexivity.
  - vm_compute; reflexivity.
Qed.

(** C3.  In each task, when the call of the judge fails, the task throws
    the judge's own error: it returns no result at all. *)
Theorem judge_failure_propagates :
  forall (w : Eval.World) (req : Eval.AskRequest) (e : Eval.Thrown),
    Eval.evaluator_ask w req = Eval.Throw e ->
    (forall a, In (Eval.Ask req) (Eval.trace_of (Tasks.webvoyager w a)) ->
               Eval.outcome_of (Tasks.webvoyager w a) = Eval.Throw e)
    /\ (forall a, In (Eval.Ask req) (Eval.trace_of (Tasks.onlineMind2Web w a)) ->
                  Eval.outcome_of (Tasks.onlineMind2Web w a) = Eval.Throw e)
    /\ (forall a, In (Eval.Ask req) (Eval.trace_of (Tasks.gaia w a)) ->
                  Eval.outcome_of (Tasks.gaia w a) = Eval.Throw e).
Proof.
  intros w req e HJ. split; [|split]; intros a HIn.
  - now apply (webvoyager_judge_failure w a req e).
  - now apply (onlineMind2Web_judge_failure w a req e).
  - now apply (gaia_judge_failure w a req e).
Qed.

Lemma judge_failure_propagates_witness :
  Eval.outcome_of
    (Tasks.webvoyager Samples.judge_down
       (Samples.args "computer-use-preview" (Some Samples.webvoyager_params)))
  = Eval.Throw (Eval.Error "judge unavailable")
  /\ Eval.outcome_of
       (Tasks.onlineMind2Web Samples.judge_down
          (Samples.args "computer-use-preview" (Some Samples.mind2web_params)))
     = Eval.Throw (Eval.Error "judge unavailable")
  /\ Eval.outcome_of
       (Tasks.gaia Samples.judge_down
          (Samples.args "computer-use-preview" (Some Samples.gaia_params)))
     = Eval.Throw (Eval.Error "judge unavailable").
Proof.
  split; [|split].
  - apply (proj1 (judge_failure_propagates Samples.judge_down
                    Samples.webvoyager_request _ eq_refl)).
    find_event.
  - apply (proj1 (proj2 (judge_failure_propagates Samples.judge_down
                           Samples.mind2web_request _ eq_refl))).
    find_event.
  - apply (proj2 (proj2 (judge_failure_propagates Samples.judge_down
                           Samples.gaia_request _ eq_refl))).
    find_event.
Defined.

(** C4, as first stated, fails: with a model that has no provider and a
    page that cannot be reached, [webvoyager] throws the navigation error
    and returns no result. *)
Lemma unsupported_model_counterexample :
  Tasks.provider_of (Eval.modelToAgentProviderMap Samples.navigation_fails) "gpt-4o"
  = None
  /\ Eval.outcome_of
       (Tasks.webvoyager Samples.navigation_fails
          (Samples.args "gpt-4o" (Some Samples.webvoyager_params)))
     = Eval.Throw (Eval.Error "net::ERR_NAME_NOT_RESOLVED")
  /\ ~ (exists msg,
          Tasks.failure_result
            (Eval.outcome_of
               (Tasks.webvoyager Samples.navigation_fails
                  (Samples.args "gpt-4o" (Some Samples.webvoyager_params))))
            msg).
Proof.
  split; [reflexivity|]. split; [vm_compute; reflexivity|].
  intros (msg & r & H & _). vm_compute in H. discriminate H.
Qed.

(** C4, amended.  For a model name for which
    [modelName in modelToAgentProviderMap] is false (the registry has no
    entry for it and inherits no property of that name from
    [Object.prototype]), no run of a task calls [agent.execute]; and
    when the required parameters are present and the navigation to the
    page succeeds, the task returns a result with [_success: false]
    whose error message names the supported models. *)
Theorem unsupported_model_fails_before_execute :
  forall w : Eval.World,
    (forall a : Tasks.TaskArgs Tasks.WebVoyagerParams,
        Tasks.provider_of (Eval.modelToAgentProviderMap w) (Tasks.modelName a) = None ->
        Tasks.never_executes (Eval.trace_of (Tasks.webvoyager w a))
        /\ (forall web,
              Tasks.field (Tasks.params_of a) Tasks.wv_web = Some web ->
              JS.truthy_str (Some web) = true ->
              JS.truthy_str (Tasks.field (Tasks.params_of a) Tasks.wv_ques) = true ->
              Eval.page_goto w web = Eval.Normal tt ->
              Tasks.failure_result (Eval.outcome_of (Tasks.webvoyager w a))
                (Tasks.unsupported_model_message w (Tasks.modelName a))))
    /\ (forall a : Tasks.TaskArgs Tasks.Mind2WebParams,
          Tasks.provider_of (Eval.modelToAgentProviderMap w) (Tasks.modelName a) = None ->
          Tasks.never_executes (Eval.trace_of (Tasks.onlineMind2Web w a))
          /\ (forall web,
                Tasks.field (Tasks.params_of a) Tasks.m2w_website = Some web ->
                JS.truthy_str (Some web) = true ->
                JS.truthy_str (Tasks.field (Tasks.params_of a) Tasks.m2w_confirmed_task)
                = true ->
                Eval.page_goto w web = Eval.Normal tt ->
                Tasks.failure_result (Eval.outcome_of (Tasks.onlineMind2Web w a))
                  (Tasks.unsupported_model_message w (Tasks.modelName a))))
    /\ (forall a : Tasks.TaskArgs Tasks.GaiaParams,
          Tasks.provider_of (Eval.modelToAgentProviderMap w) (Tasks.modelName a) = None ->
          Tasks.never_executes (Eval.trace_of (Tasks.gaia w a))
          /\ (forall web,
                Tasks.field (Tasks.params_of a) Tasks.gaia_web = Some web ->
                JS.truthy_str (Some web) = true ->
                JS.truthy_str (Tasks.field (Tasks.params_of a) Tasks.gaia_ques) = true ->
                Eval.page_goto w web = Eval.Normal tt ->
                Tasks.failure_result (Eval.outcome_of (Tasks.gaia w a))
                  (Tasks.unsupported_model_message w (Tasks.modelName a)))).
Proof.
  intro w. split; [|split]; intros a Hp.
  - split; [now apply webvoyager_unsupported_never_executes|].
    intros web Hf Hw Hq Hg. rewrite <- Hf in Hw.
    apply present_some in Hw as (web' & E & Hw).
    apply present_some in Hq as (ques & _ & Hq).
    assert (web' = web) by congruence; subst web'.
    unfold Eval.outcome_of. rewrite (webvoyager_unsupported w a web ques Hp Hw Hq Hg).
    eexists; repeat split; reflexivity.
  - split; [now apply onlineMind2Web_unsupported_never_executes|].
    intros web Hf Hw Hq Hg. rewrite <- Hf in Hw.
    apply present_some in Hw as (web' & E & Hw).
    apply present_some in Hq as (task & _ & Hq).
    assert (web' = web) by congruence; subst web'.
    unfold Eval.outcome_of. rewrite (onlineMind2Web_unsupported w a web task Hp Hw Hq Hg).
    eexists; repeat split; reflexivity.
  - split; [now apply gaia_unsupported_never_executes|].
    intros web Hf Hw Hq Hg. rewrite <- Hf in Hw.
    apply present_some in Hw as (web' & E & Hw).
    apply present_some in Hq as (ques & _ & Hq).
    assert (web' = web) by congruence; subst web'.
    unfold Eval.outcome_of. rewrite (gaia_unsupported w a web ques Hp Hw Hq Hg).
    eexists; repeat split; reflexivity.
Qed.

Lemma unsupported_model_fails_before_execute_witness :
  Tasks.failure_result
    (Eval.outcome_of
       (Tasks.webvoyager Samples.world
          (Samples.args "gpt-4o" (Some Samples.webvoyager_params))))
    "Model gpt-4o is not supported for agent tasks. Supported models: computer-use-preview, claude-sonnet-4-20250514"
  /\ Tasks.failure_result
       (Eval.outcome_of
          (Tasks.onlineMind2Web Samples.world
             (Samples.args "gpt-4o" (Some Samples.mind2web_params))))
       "Model gpt-4o is not supported for agent tasks. Supported models: computer-use-preview, claude-sonnet-4-20250514"
  /\ Tasks.failure_result
       (Eval.outcome_of
          (Tasks.gaia Samples.world
             (Samples.args "gpt-4o" (Some Samples.gaia_params))))
       "Model gpt-4o is not supported for agent tasks. Supported models: computer-use-preview, claude-sonnet-4-20250514".
Proof.
  pose proof (unsupported_model_fails_before_execute Samples.world) as (Hw & Hm & Hg).
  split; [|split].
  - exact (proj2 (Hw (Samples.args "gpt-4o" (Some Samples.webvoyager_params)) eq_refl)
             _ eq_refl eq_refl eq_refl eq_refl).
  - exact (proj2 (Hm (Samples.args "gpt-4o" (Some Samples.mind2web_params)) eq_refl)
             _ eq_refl eq_refl eq_refl eq_refl).
  - exact (proj2 (Hg (Samples.args "gpt-4o" (Some Samples.gaia_params)) eq_refl)
             _ eq_refl eq_refl eq_refl eq_refl).
Defined.

(** The [in] test of the tasks also holds for a name the registry only
    inherits from [Object.prototype]: for such a model name the task
    goes on to create and run its agent. *)
Example inherited_model_name_reaches_the_agent :
  Tasks.own (Eval.modelToAgentProviderMap Samples.world) "toString" = None
  /\ Tasks.provider_of (Eval.modelToAgentProviderMap Samples.world) "toString"
     = Some (Eval.Inherited "toString")
  /\ In (Eval.Execute "Find a vegetarian lasagna recipe" (JS.num 75))
        (Eval.trace_of
           (Tasks.webvoyager Samples.world
              (Samples.args "toString" (Some Samples.webvoyager_params)))).
Proof.
  split; [reflexivity|]. split; [reflexivity|]. find_event.
Qed.

(** The [in] test fails exactly for a name that is neither a key of the
    registry nor inherited. *)
Lemma provider_of_none (registry : list (string * string)) (model : string) :
  Tasks.provider_of registry model = None
  <-> Tasks.own registry model = None /\ Tasks.inherited model = false.
Proof.
  unfold Tasks.provider_of.
  destruct (Tasks.own registry model); [split; [discriminate|intros [H _]; discriminate H]|].
  destruct (Tasks.inherited model); split; try discriminate; try tauto.
  intros [_ H]; discriminate H.
Qed.

(** The budget of each task, by the truth value of the converted
    override. *)
Lemma budget_cases (w : Eval.World) (fallback : Z) :
  let override := JS.Number (Eval.process_env w "AGENT_EVAL_MAX_STEPS"%string) in
  (JS.truthy override = true -> Tasks.maxSteps_or w fallback = override)
  /\ (JS.truthy override = false -> Tasks.maxSteps_or w fallback = JS.num fallback).
Proof.
  cbv zeta. unfold Tasks.maxSteps_or, JS.or_else.
  split; intros ->; reflexivity.
Qed.

(** C8, as first stated, fails: with [AGENT_EVAL_MAX_STEPS=0] the
    override is given and converts to 0, and [webvoyager] runs the agent
    with 75 steps. *)
Lemma override_zero_counterexample :
  Eval.process_env (Samples.budget "0") "AGENT_EVAL_MAX_STEPS"%string = Some "0"%string
  /\ JS.Number (Some "0"%string) = JS.num 0
  /\ In (Eval.Execute "Find a vegetarian lasagna recipe" (JS.num 75))
        (Eval.trace_of
           (Tasks.webvoyager (Samples.budget "0")
              (Samples.args "computer-use-preview" (Some Samples.webvoyager_params))))
  /\ ~ Tasks.budget_is
        (Eval.trace_of
           (Tasks.webvoyager (Samples.budget "0")
              (Samples.args "computer-use-preview" (Some Samples.webvoyager_params))))
        (JS.Number (Some "0"%string)).
Proof.
  split; [reflexivity|]. split; [reflexivity|].
  assert (HIn : In (Eval.Execute "Find a vegetarian lasagna recipe" (JS.num 75))
                   (Eval.trace_of
                      (Tasks.webvoyager (Samples.budget "0")
                         (Samples.args "computer-use-preview"
                            (Some Samples.webvoyager_params)))))
    by find_event.
  split; [exact HIn|].
  intro H. specialize (H _ _ HIn). discriminate H.
Qed.

(** C8, amended.  Each task runs its agent with the step budget
    [Number(AGENT_EVAL_MAX_STEPS)] when that is a number other than
    zero, and with the default of its dataset (75 for [webvoyager], 80
    for [onlineMind2Web], 50 for [gaia]) when no override is given:
    whenever the parameters are present and the task gets as far as its
    agent, [agent.execute] is called with the task text and that budget,
    and no run calls it with another one. *)
Theorem budget_is_override_or_default :
  forall w : Eval.World,
    let override := JS.Number (Eval.process_env w "AGENT_EVAL_MAX_STEPS"%string) in
    (JS.truthy override = true ->
     Tasks.runs_agent_with Tasks.webvoyager Tasks.wv_web Tasks.wv_ques w override
     /\ Tasks.runs_agent_with Tasks.onlineMind2Web Tasks.m2w_website
          Tasks.m2w_confirmed_task w override
     /\ Tasks.runs_agent_with Tasks.gaia Tasks.gaia_web Tasks.gaia_ques w override)
    /\ (Eval.process_env w "AGENT_EVAL_MAX_STEPS"%string = None ->
        Tasks.runs_agent_with Tasks.webvoyager Tasks.wv_web Tasks.wv_ques w (JS.num 75)
        /\ Tasks.runs_agent_with Tasks.onlineMind2Web Tasks.m2w_website
             Tasks.m2w_confirmed_task w (JS.num 80)
        /\ Tasks.runs_agent_with Tasks.gaia Tasks.gaia_web Tasks.gaia_ques w
             (JS.num 50)).
Proof.
  intros w override. subst override.
  pose proof (tasks_run_agent_with_budget w) as H. split.
  - intro Ht.
    now rewrite (proj1 (budget_cases w 75) Ht), (proj1 (budget_cases w 80) Ht),
      (proj1 (budget_cases w 50) Ht) in H.
  - intro Hnone.
    assert (Hf : JS.truthy (JS.Number (Eval.process_env w "AGENT_EVAL_MAX_STEPS"%string))
                 = false) by now rewrite Hnone.
    now rewrite (proj2 (budget_cases w 75) Hf), (proj2 (budget_cases w 80) Hf),
      (proj2 (budget_cases w 50) Hf) in H.
Qed.

Lemma budget_is_override_or_default_witness :
  In (Eval.Execute "Find a vegetarian lasagna recipe" (JS.num 30))
     (Eval.trace_of
        (Tasks.webvoyager (Samples.budget "30")
           (Samples.args "computer-use-preview" (Some Samples.webvoyager_params))))
  /\ In (Eval.Execute "find price" (JS.num 30))
        (Eval.trace_of
           (Tasks.onlineMind2Web (Samples.budget "30")
              (Samples.args "computer-use-preview" (Some Samples.mind2web_params))))
  /\ In (Eval.Execute "Who wrote Pride and Prejudice?" (JS.num 50))
        (Eval.trace_of
           (Tasks.gaia Samples.world
              (Samples.args "computer-use-preview" (Some Samples.gaia_params)))).
Proof.
  split; [|split].
  - refine (proj2 (proj1 (proj1 (budget_is_override_or_default (Samples.budget "30"))
                            eq_refl)
                         (Samples.args "computer-use-preview"
                            (Some Samples.webvoyager_params)))
                  "https://www.allrecipes.com/"%string _ eq_refl eq_refl _).
    split; [reflexivity|]. do 4 eexists. repeat split; reflexivity.
  - refine (proj2 (proj1 (proj2 (proj1 (budget_is_override_or_default
                                          (Samples.budget "30")) eq_refl))
                         (Samples.args "computer-use-preview"
                            (Some Samples.mind2web_params)))
                  "https://example.com"%string _ eq_refl eq_refl _).
    split; [reflexivity|]. do 4 eexists. repeat split; reflexivity.
  - refine (proj2 (proj2 (proj2 (proj2 (budget_is_override_or_default Samples.world)
                                   eq_refl))
                         (Samples.args "computer-use-preview"
                            (Some Samples.gaia_params)))
                  "https://www.wikipedia.org/"%string _ eq_refl eq_refl _).
    split; [reflexivity|]. do 4 eexists. repeat split; reflexivity.
Defined.

(** C10.  When the override converts to zero or to [NaN], each task
    runs its agent with the default of its dataset: whenever the
    parameters are present and the task gets as far as its agent,
    [agent.execute] is called with the task text and that default, and
    no run calls it with another budget. *)
Theorem falsy_override_gives_default :
  forall w : Eval.World,
    let override := JS.Number (Eval.process_env w "AGENT_EVAL_MAX_STEPS"%string) in
    override = JS.NaN \/ override = JS.num 0 \/ override = JS.NegZero ->
    Tasks.runs_agent_with Tasks.webvoyager Tasks.wv_web Tasks.wv_ques w (JS.num 75)
    /\ Tasks.runs_agent_with Tasks.onlineMind2Web Tasks.m2w_website
         Tasks.m2w_confirmed_task w (JS.num 80)
    /\ Tasks.runs_agent_with Tasks.gaia Tasks.gaia_web Tasks.gaia_ques w (JS.num 50).
Proof.
  intros w override H.
  assert (Hf : JS.truthy override = false)
    by (destruct H as [->|[->| ->]]; reflexivity).
  subst override. pose proof (tasks_run_agent_with_budget w) as R.
  now rewrite (proj2 (budget_cases w 75) Hf), (proj2 (budget_cases w 80) Hf),
    (proj2 (budget_cases w 50) Hf) in R.
Qed.

Lemma falsy_override_gives_default_witness :
  JS.Number (Some "0"%string) = JS.num 0
  /\ JS.Number (Some "many"%string) = JS.NaN
  /\ In (Eval.Execute "Find a vegetarian lasagna recipe" (JS.num 75))
        (Eval.trace_of
           (Tasks.webvoyager (Samples.budget "0")
              (Samples.args "computer-use-preview" (Some Samples.webvoyager_params))))
  /\ In (Eval.Execute "find price" (JS.num 80))
        (Eval.trace_of
           (Tasks.onlineMind2Web (Samples.budget "many")
              (Samples.args "computer-use-preview" (Some Samples.mind2web_params))))
  /\ In (Eval.Execute "Who wrote Pride and Prejudice?" (JS.num 50))
        (Eval.trace_of
           (Tasks.gaia (Samples.budget "0")
              (Samples.args "computer-use-preview" (Some Samples.gaia_params)))).
Proof.
  split; [reflexivity|]. split; [reflexivity|]. split; [|split].
  - refine (proj2 (proj1 (falsy_override_gives_default (Samples.budget "0")
                            (or_intror (or_introl eq_refl)))
                         (Samples.args "computer-use-preview"
                            (Some Samples.webvoyager_params)))
                  "https://www.allrecipes.com/"%string _ eq_refl eq_refl _).
    split; [reflexivity|]. do 4 eexists. repeat split; reflexivity.
  - refine (proj2 (proj1 (proj2 (falsy_override_gives_default (Samples.budget "many")
                                   (or_introl eq_refl)))
                         (Samples.args "computer-use-preview"
                            (Some Samples.mind2web_params)))
                  "https://example.com"%string _ eq_refl eq_refl _).
    split; [reflexivity|]. do 4 eexists. repeat split; reflexivity.
  - refine (proj2 (proj2 (proj2 (falsy_override_gives_default (Samples.budget "0")
                                   (or_intror (or_introl eq_refl))))
                         (Samples.args "computer-use-preview"
                            (Some Samples.gaia_params)))
                  "https://www.wikipedia.org/"%string _ eq_refl eq_refl _).
    split; [reflexivity|]. do 4 eexists. repeat split; reflexivity.
Defined.

(** * Further properties of the tasks *)

Section TraceFacts.

Import Eval Observe.

Lemma precededb_sound {Ev : Type} (earlier later : Ev -> bool) (t : list Ev) :
  precededb earlier later false t = true -> happens_before earlier later t.
Proof.
  assert (G : forall t seen,
             precededb earlier later seen t = true ->
             forall pre ev post,
               t = pre ++ ev :: post -> later ev = true ->
               seen = true \/ exists ev', In ev' pre /\ earlier ev' = true).
  { clear t. induction t as [|x t IH]; intros seen H pre ev post E Hl.
    - destruct pre; discriminate E.
    - cbn in H. apply andb_prop in H as [Hx Ht].
      destruct pre as [|y pre]; cbn in E; injection E as -> ->.
      + rewrite Hl in Hx. now left.
      + destruct (IH _ Ht pre ev post eq_refl Hl) as [Hs|(ev' & Hin & He)].
        * apply orb_prop in Hs as [Hs|Hs]; [now left|].
          right. exists y. split; [now left|exact Hs].
        * right. exists ev'. split; [now right|exact He]. }
  intros H pre ev post E Hl.
  destruct (G t false H pre ev post E Hl) as [Hs|Hs]; [discriminate|exact Hs].
Qed.

End TraceFacts.

(** Settle a statement about the trace of one path. *)
Ltac on_path := cbn [fst snd]; try reflexivity; try (repeat constructor; fail).

Section MoreTaskFacts.

Import Eval Tasks Observe.

Variable w : World.

(** *** A failing navigation *)

Lemma webvoyager_goto_fails (a : TaskArgs WebVoyagerParams) web ques e :
  present (field (params_of a) wv_web) = Some web ->
  present (field (params_of a) wv_ques) = Some ques ->
  page_goto w web = Throw e ->
  run (webvoyager w a) = ([DateNow; Goto web 120000; ConsoleError e], Throw e).
Proof.
  intros Hw Hq Hg. unfold run, webvoyager. unfold_monad.
  rewrite Hw, Hq, Hg. reflexivity.
Qed.

Lemma onlineMind2Web_goto_fails (a : TaskArgs Mind2WebParams) web task e :
  present (field (params_of a) m2w_website) = Some web ->
  present (field (params_of a) m2w_confirmed_task) = Some task ->
  page_goto w web = Throw e ->
  run (onlineMind2Web w a) = ([DateNow; Goto web 120000; ConsoleError e], Throw e).
Proof.
  intros Hw Hq Hg. unfold run, onlineMind2Web. unfold_monad.
  rewrite Hw, Hq, Hg. reflexivity.
Qed.

Lemma gaia_goto_fails (a : TaskArgs GaiaParams) web ques e :
  present (field (params_of a) gaia_web) = Some web ->
  present (field (params_of a) gaia_ques) = Some ques ->
  page_goto w web = Throw e ->
  run (gaia w a) = ([DateNow; Goto web 120000; Close], Throw e).
Proof.
  intros Hw Hq Hg. unfold run, gaia. unfold_monad.
  rewrite Hw, Hq, Hg. reflexivity.
Qed.

(** *** A failing agent *)

Lemma webvoyager_execute_fails (a : TaskArgs WebVoyagerParams) cfg ag i n e :
  In (CreateAgent cfg) (trace_of (webvoyager w a)) ->
  stagehand_agent w cfg = Normal ag ->
  In (Execute i n) (trace_of (webvoyager w a)) ->
  execute ag i n = Throw e ->
  outcome_of (webvoyager w a) = Throw e
  /\ none is_ask (trace_of (webvoyager w a))
  /\ count is_collector_start (trace_of (webvoyager w a)) = 1
  /\ none is_collector_stop (trace_of (webvoyager w a)).
Proof.
  unfold none, count, trace_of, outcome_of, run, webvoyager.
  explore.
  all: cbn [fst snd]; intros HC HA HE HX; in_trace HC; in_trace HE;
    try congruence.
  all: repeat split; try congruence; try reflexivity; repeat constructor.
Qed.

Lemma onlineMind2Web_execute_fails (a : TaskArgs Mind2WebParams) cfg ag i n e :
  In (CreateAgent cfg) (trace_of (onlineMind2Web w a)) ->
  stagehand_agent w cfg = Normal ag ->
  In (Execute i n) (trace_of (onlineMind2Web w a)) ->
  execute ag i n = Throw e ->
  outcome_of (onlineMind2Web w a) = Throw e
  /\ none is_ask (trace_of (onlineMind2Web w a))
  /\ count is_collector_start (trace_of (onlineMind2Web w a)) = 1
  /\ none is_collector_stop (trace_of (onlineMind2Web w a)).
Proof.
  unfold none, count, trace_of, outcome_of, run, onlineMind2Web.
  explore.
  all: cbn [fst snd]; intros HC HA HE HX; in_trace HC; in_trace HE;
    try congruence.
  all: repeat split; try congruence; try reflexivity; repeat constructor.
Qed.

Lemma gaia_execute_fails (a : TaskArgs GaiaParams) cfg ag i n e :
  In (CreateAgent cfg) (trace_of (gaia w a)) ->
  stagehand_agent w cfg = Normal ag ->
  In (Execute i n) (trace_of (gaia w a)) ->
  execute ag i n = Throw e ->
  outcome_of (gaia w a) = Throw e
  /\ none is_ask (trace_of (gaia w a))
  /\ count is_close (trace_of (gaia w a)) = 1.
Proof.
  unfold none, count, trace_of, outcome_of, run, gaia.
  explore.
  all: cbn [fst snd]; intros HC HA HE HX; in_trace HC; in_trace HE;
    try congruence.
  all: repeat split; try congruence; try reflexivity; repeat constructor.
Qed.

(** *** Closing the session *)

Lemma gaia_closes_last (a : TaskArgs GaiaParams) :
  last (trace_of (gaia w a)) DateNow = Close
  /\ count is_close (trace_of (gaia w a)) = 1.
Proof.
  unfold count, trace_of, run, gaia. explore. all: split; on_path.
Qed.

Lemma webvoyager_never_closes (a : TaskArgs WebVoyagerParams) :
  none is_close (trace_of (webvoyager w a)).
Proof. unfold none, trace_of, run, webvoyager. explore. all: on_path. Qed.

Lemma onlineMind2Web_never_closes (a : TaskArgs Mind2WebParams) :
  none is_close (trace_of (onlineMind2Web w a)).
Proof. unfold none, trace_of, run, onlineMind2Web. explore. all: on_path. Qed.

(** *** The order of the calls *)

Lemma webvoyager_order (a : TaskArgs WebVoyagerParams) :
  let t := trace_of (webvoyager w a) in
  (count navigates t <= 1 /\ count is_create t <= 1
   /\ count is_execute t <= 1 /\ count is_ask t <= 1)
  /\ happens_before navigates is_create t
  /\ happens_before is_create is_execute t
  /\ happens_before is_execute is_ask t.
Proof.
  cbv zeta. unfold count, trace_of, run, webvoyager. explore.
  all: cbn [fst snd]; split; [cbn; lia|];
    repeat split; apply precededb_sound; reflexivity.
Qed.

Lemma onlineMind2Web_order (a : TaskArgs Mind2WebParams) :
  let t := trace_of (onlineMind2Web w a) in
  (count navigates t <= 1 /\ count is_create t <= 1
   /\ count is_execute t <= 1 /\ count is_ask t <= 1)
  /\ happens_before navigates is_create t
  /\ happens_before is_create is_execute t
  /\ happens_before is_execute is_ask t.
Proof.
  cbv zeta. unfold count, trace_of, run, onlineMind2Web. explore.
  all: cbn [fst snd]; split; [cbn; lia|];
    repeat split; apply precededb_sound; reflexivity.
Qed.

Lemma gaia_order (a : TaskArgs GaiaParams) :
  let t := trace_of (gaia w a) in
  (count navigates t <= 1 /\ count is_create t <= 1
   /\ count is_execute t <= 1 /\ count is_ask t <= 1)
  /\ happens_before navigates is_create t
  /\ happens_before is_create is_execute t
  /\ happens_before is_execute is_ask t.
Proof.
  cbv zeta. unfold count, trace_of, run, gaia. explore.
  all: cbn [fst snd]; split; [cbn; lia|];
    repeat split; apply precededb_sound; reflexivity.
Qed.

(** *** Success *)

Lemma webvoyager_success (a : TaskArgs WebVoyagerParams) r :
  outcome_of (webvoyager w a) = Normal r ->
  _success r = true ->
  exists req v,
    In (Ask req) (trace_of (webvoyager w a))
    /\ evaluator_ask w req = Normal v
    /\ evaluation v = "YES"%string.
Proof.
  unfold trace_of, outcome_of, run, webvoyager. explore.
  all: cbn [fst snd]; intros HO HS; try discriminate HO.
  all: injection HO as <-; cbn [_success] in HS; try discriminate HS.
  all: do 2 eexists; split; [|split; [eassumption|now apply String.eqb_eq]].
  all: cbn [In]; tauto.
Qed.

Lemma onlineMind2Web_success (a : TaskArgs Mind2WebParams) r :
  outcome_of (onlineMind2Web w a) = Normal r ->
  _success r = true ->
  exists req v,
    In (Ask req) (trace_of (onlineMind2Web w a))
    /\ evaluator_ask w req = Normal v
    /\ evaluation v = "YES"%string.
Proof.
  unfold trace_of, outcome_of, run, onlineMind2Web. explore.
  all: cbn [fst snd]; intros HO HS; try discriminate HO.
  all: injection HO as <-; cbn [_success] in HS; try discriminate HS.
  all: do 2 eexists; split; [|split; [eassumption|now apply String.eqb_eq]].
  all: cbn [In]; tauto.
Qed.

Lemma gaia_success (a : TaskArgs GaiaParams) r :
  outcome_of (gaia w a) = Normal r ->
  _success r = true ->
  exists req v,
    In (Ask req) (trace_of (gaia w a))
    /\ evaluator_ask w req = Normal v
    /\ evaluation v = "YES"%string.
Proof.
  unfold trace_of, outcome_of, run, gaia. explore.
  all: cbn [fst snd]; intros HO HS; try discriminate HO.
  all: injection HO as <-; cbn [_success] in HS; try discriminate HS.
  all: do 2 eexists; split; [|split; [eassumption|now apply String.eqb_eq]].
  all: cbn [In]; tauto.
Qed.

(** *** What the judge is asked *)

Lemma or_str_nonempty (v : option string) (fallback : string) :
  fallback <> ""%string -> JS.or_str v fallback <> ""%string.
Proof.
  intro Hf. destruct v as [s|]; cbn; [|exact Hf].
  destruct (String.eqb_spec s ""); [exact Hf|assumption].
Qed.

Lemma or_str_cases (v : option string) (fallback : string) :
  (forall m, v = Some m -> m <> ""%string -> JS.or_str v fallback = m)
  /\ (v = None \/ v = Some ""%string -> JS.or_str v fallback = fallback).
Proof.
  split.
  - intros m -> Hm. cbn. destruct (String.eqb_spec m ""); [contradiction|reflexivity].
  - intros [->| ->]; reflexivity.
Qed.

Lemma webvoyager_request (a : TaskArgs WebVoyagerParams) req :
  In (Ask req) (trace_of (webvoyager w a)) ->
  exists ques cfg ag n result,
    present (field (params_of a) wv_ques) = Some ques
    /\ question req = completed_question ques
    /\ screenshot req = Frames (collected w)
    /\ answer req = None
    /\ In (CreateAgent cfg) (trace_of (webvoyager w a))
    /\ stagehand_agent w cfg = Normal ag
    /\ In (Execute ques n) (trace_of (webvoyager w a))
    /\ execute ag ques n = Normal result
    /\ agentReasoning req = Some (JS.or_str (message result) no_reasoning).
Proof.
  unfold trace_of, run, webvoyager. explore.
  all: cbn [fst snd]; intros HIn; in_trace HIn.
  all: do 5 eexists; repeat split; try reflexivity; try eassumption.
  all: cbn [In]; repeat (first [left; reflexivity | right]).
Qed.

Lemma onlineMind2Web_request (a : TaskArgs Mind2WebParams) req :
  In (Ask req) (trace_of (onlineMind2Web w a)) ->
  exists task cfg ag n result,
    present (field (params_of a) m2w_confirmed_task) = Some task
    /\ question req = completed_question task
    /\ screenshot req = Frames (collected w)
    /\ answer req = None
    /\ In (CreateAgent cfg) (trace_of (onlineMind2Web w a))
    /\ stagehand_agent w cfg = Normal ag
    /\ In (Execute task n) (trace_of (onlineMind2Web w a))
    /\ execute ag task n = Normal result
    /\ agentReasoning req = Some (JS.or_str (message result) no_reasoning).
Proof.
  unfold trace_of, run, onlineMind2Web. explore.
  all: cbn [fst snd]; intros HIn; in_trace HIn.
  all: do 5 eexists; repeat split; try reflexivity; try eassumption.
  all: cbn [In]; repeat (first [left; reflexivity | right]).
Qed.

Lemma gaia_request (a : TaskArgs GaiaParams) req :
  In (Ask req) (trace_of (gaia w a)) ->
  question req = expected_question (field (params_of a) gaia_expected)
  /\ screenshot req = NoScreenshot
  /\ agentReasoning req = None
  /\ exists text, answer req = Some text.
Proof.
  unfold trace_of, run, gaia. explore.
  all: cbn [fst snd]; intros HIn; in_trace HIn.
  all: repeat split; eexists; reflexivity.
Qed.

Lemma gaia_no_collector (a : TaskArgs GaiaParams) :
  none is_collector (trace_of (gaia w a)).
Proof. unfold none, trace_of, run, gaia. explore. all: on_path. Qed.

(** *** Where a task goes and what it tells the agent *)

Lemma webvoyager_targets (a : TaskArgs WebVoyagerParams) :
  (forall url ms, In (Goto url ms) (trace_of (webvoyager w a)) ->
                  present (field (params_of a) wv_web) = Some url /\ ms = 120000%Z)
  /\ (forall i n, In (Execute i n) (trace_of (webvoyager w a)) ->
                  present (field (params_of a) wv_ques) = Some i).
Proof.
  unfold trace_of, run, webvoyager. explore.
  all: cbn [fst snd]; split; [intros url ms HIn|intros i n HIn]; in_trace HIn.
  all: try (injection HIn as <- <-); auto.
Qed.

Lemma onlineMind2Web_targets (a : TaskArgs Mind2WebParams) :
  (forall url ms, In (Goto url ms) (trace_of (onlineMind2Web w a)) ->
                  present (field (params_of a) m2w_website) = Some url
                  /\ ms = 120000%Z)
  /\ (forall i n, In (Execute i n) (trace_of (onlineMind2Web w a)) ->
                  present (field (params_of a) m2w_confirmed_task) = Some i).
Proof.
  unfold trace_of, run, onlineMind2Web. explore.
  all: cbn [fst snd]; split; [intros url ms HIn|intros i n HIn]; in_trace HIn.
  all: try (injection HIn as <- <-); auto.
Qed.

Lemma gaia_targets (a : TaskArgs GaiaParams) :
  (forall url ms, In (Goto url ms) (trace_of (gaia w a)) ->
                  present (field (params_of a) gaia_web) = Some url /\ ms = 120000%Z)
  /\ (forall i n, In (Execute i n) (trace_of (gaia w a)) ->
                  present (field (params_of a) gaia_ques) = Some i).
Proof.
  unfold trace_of, run, gaia. explore.
  all: cbn [fst snd]; split; [intros url ms HIn|intros i n HIn]; in_trace HIn.
  all: try (injection HIn as <- <-); auto.
Qed.

(** *** The verdict of [onlineMind2Web] and of [gaia] *)

Lemma onlineMind2Web_returns_verdict (a : TaskArgs Mind2WebParams) req v :
  In (Ask req) (trace_of (onlineMind2Web w a)) ->
  evaluator_ask w req = Normal v ->
  JS.includes (reasoning v) "access denied" = false
  \/ evaluation v <> "NO"%string ->
  exists r,
    outcome_of (onlineMind2Web w a) = Normal r
    /\ _success r = (evaluation v =? "YES")%string
    /\ res_reasoning r = Some (reasoning v)
    /\ task_level r = field (params_of a) m2w_level
    /\ screenshotCount r = Some (length (collected w))
    /\ error r = None.
Proof.
  unfold trace_of, outcome_of, run, onlineMind2Web. explore.
  all: cbn [fst snd]; intros HIn HJ Hok; in_trace HIn; try congruence.
  all: rewrite HJ in *;
    match goal with H : Normal _ = Normal _ |- _ => injection H as -> end.
  all: try (eexists; repeat split; reflexivity).
  all: exfalso;
    match goal with
    | H : (_ && _)%bool = true |- _ => apply andb_prop in H as [Hi Hn]
    end;
    apply String.eqb_eq in Hn; destruct Hok; congruence.
Qed.

Lemma gaia_returns_verdict (a : TaskArgs GaiaParams) req v :
  In (Ask req) (trace_of (gaia w a)) ->
  evaluator_ask w req = Normal v ->
  exists r,
    outcome_of (gaia w a) = Normal r
    /\ _success r = (evaluation v =? "YES")%string
    /\ res_reasoning r = Some (reasoning v)
    /\ screenshotCount r = None
    /\ error r = None.
Proof.
  unfold trace_of, outcome_of, run, gaia. explore.
  all: cbn [fst snd]; intros HIn HJ; in_trace HIn; try congruence.
  all: rewrite HJ in *;
    match goal with H : Normal _ = Normal _ |- _ => injection H as -> end;
    eexists; repeat split; reflexivity.
Qed.

(** *** The step budget is a number to count with *)

Lemma maxSteps_or_truthy (fallback : Z) :
  fallback <> 0%Z -> JS.truthy (maxSteps_or w fallback) = true.
Proof.
  intro H. unfold maxSteps_or, JS.or_else.
  destruct (JS.truthy (JS.Number _)) eqn:E; [exact E|].
  cbn. destruct fallback; [contradiction|reflexivity|reflexivity].
Qed.

End MoreTaskFacts.

(** X1.  When the navigation to the page of the task throws, the task
    throws the same error; nothing was done but reading the clock and
    navigating ([webvoyager] and [onlineMind2Web] print the error,
    [gaia] closes the session): no agent is created, no judge asked. *)
Theorem navigation_failure_propagates :
  forall (w : Eval.World) (web : string) (e : Eval.Thrown),
    Eval.page_goto w web = Eval.Throw e ->
    (forall a ques,
        Tasks.present (Tasks.field (Tasks.params_of a) Tasks.wv_web) = Some web ->
        Tasks.present (Tasks.field (Tasks.params_of a) Tasks.wv_ques) = Some ques ->
        Eval.run (Tasks.webvoyager w a)
        = ([Eval.DateNow; Eval.Goto web 120000; Eval.ConsoleError e], Eval.Throw e))
    /\ (forall a task,
          Tasks.present (Tasks.field (Tasks.params_of a) Tasks.m2w_website) = Some web ->
          Tasks.present (Tasks.field (Tasks.params_of a) Tasks.m2w_confirmed_task)
          = Some task ->
          Eval.run (Tasks.onlineMind2Web w a)
          = ([Eval.DateNow; Eval.Goto web 120000; Eval.ConsoleError e], Eval.Throw e))
    /\ (forall a ques,
          Tasks.present (Tasks.field (Tasks.params_of a) Tasks.gaia_web) = Some web ->
          Tasks.present (Tasks.field (Tasks.params_of a) Tasks.gaia_ques) = Some ques ->
          Eval.run (Tasks.gaia w a)
          = ([Eval.DateNow; Eval.Goto web 120000; Eval.Close], Eval.Throw e)).
Proof.
  intros w web e Hg. split; [|split]; intros a q Hw Hq.
  - now apply (webvoyager_goto_fails w a web q).
  - now apply (onlineMind2Web_goto_fails w a web q).
  - now apply (gaia_goto_fails w a web q).
Qed.

Lemma navigation_failure_propagates_witness :
  Eval.outcome_of (Tasks.webvoyager Samples.navigation_fails Scenarios.webvoyager_args)
  = Eval.Throw (Eval.Error "net::ERR_NAME_NOT_RESOLVED")
  /\ Eval.outcome_of (Tasks.onlineMind2Web Samples.navigation_fails Scenarios.mind2web_args)
     = Eval.Throw (Eval.Error "net::ERR_NAME_NOT_RESOLVED")
  /\ Eval.outcome_of (Tasks.gaia Samples.navigation_fails Scenarios.gaia_args)
     = Eval.Throw (Eval.Error "net::ERR_NAME_NOT_RESOLVED").
Proof.
  split; [|split].
  - exact (f_equal snd
             (proj1 (navigation_failure_propagates Samples.navigation_fails
                       "https://www.allrecipes.com/" _ eq_refl)
                    Scenarios.webvoyager_args _ eq_refl eq_refl)).
  - exact (f_equal snd
             (proj1 (proj2 (navigation_failure_propagates Samples.navigation_fails
                              "https://example.com" _ eq_refl))
                    Scenarios.mind2web_args _ eq_refl eq_refl)).
  - exact (f_equal snd
             (proj2 (proj2 (navigation_failure_propagates Samples.navigation_fails
                              "https://www.wikipedia.org/" _ eq_refl))
                    Scenarios.gaia_args _ eq_refl eq_refl)).
Defined.

(** X2.  When [agent.execute] throws, the task throws the same error
    and the judge is not asked.  [webvoyager] and [onlineMind2Web] have
    started the screenshot collector by then and do not stop it; [gaia]
    closes the session. *)
Theorem agent_failure_propagates :
  forall (w : Eval.World) (cfg : Eval.AgentConfig) (ag : Eval.Agent)
         (i : string) (n : JS.number) (e : Eval.Thrown),
    Eval.stagehand_agent w cfg = Eval.Normal ag ->
    Eval.execute ag i n = Eval.Throw e ->
    (forall a,
        In (Eval.CreateAgent cfg) (Eval.trace_of (Tasks.webvoyager w a)) ->
        In (Eval.Execute i n) (Eval.trace_of (Tasks.webvoyager w a)) ->
        Eval.outcome_of (Tasks.webvoyager w a) = Eval.Throw e
        /\ Observe.none Observe.is_ask (Eval.trace_of (Tasks.webvoyager w a))
        /\ Observe.count Observe.is_collector_start
             (Eval.trace_of (Tasks.webvoyager w a)) = 1
        /\ Observe.none Observe.is_collector_stop
             (Eval.trace_of (Tasks.webvoyager w a)))
    /\ (forall a,
          In (Eval.CreateAgent cfg) (Eval.trace_of (Tasks.onlineMind2Web w a)) ->
          In (Eval.Execute i n) (Eval.trace_of (Tasks.onlineMind2Web w a)) ->
          Eval.outcome_of (Tasks.onlineMind2Web w a) = Eval.Throw e
          /\ Observe.none Observe.is_ask (Eval.trace_of (Tasks.onlineMind2Web w a))
          /\ Observe.count Observe.is_collector_start
               (Eval.trace_of (Tasks.onlineMind2Web w a)) = 1
          /\ Observe.none Observe.is_collector_stop
               (Eval.trace_of (Tasks.onlineMind2Web w a)))
    /\ (forall a,
          In (Eval.CreateAgent cfg) (Eval.trace_of (Tasks.gaia w a)) ->
          In (Eval.Execute i n) (Eval.trace_of (Tasks.gaia w a)) ->
          Eval.outcome_of (Tasks.gaia w a) = Eval.Throw e
          /\ Observe.none Observe.is_ask (Eval.trace_of (Tasks.gaia w a))
          /\ Observe.count Observe.is_close (Eval.trace_of (Tasks.gaia w a)) = 1).
Proof.
  intros w cfg ag i n e HA HX. split; [|split]; intros a HC HE.
  - now apply (webvoyager_execute_fails w a cfg ag i n e).
  - now apply (onlineMind2Web_execute_fails w a cfg ag i n e).
  - now apply (gaia_execute_fails w a cfg ag i n e).
Qed.

Lemma agent_failure_propagates_witness :
  Eval.outcome_of (Tasks.webvoyager Scenarios.agent_fails Scenarios.webvoyager_args)
  = Eval.Throw (Eval.Error "agent crashed")
  /\ Eval.outcome_of (Tasks.onlineMind2Web Scenarios.agent_fails Scenarios.mind2web_args)
     = Eval.Throw (Eval.Error "agent crashed")
  /\ Eval.outcome_of (Tasks.gaia Scenarios.agent_fails Scenarios.gaia_args)
     = Eval.Throw (Eval.Error "agent crashed").
Proof.
  split; [|split].
  - refine (proj1 (proj1 (agent_failure_propagates Scenarios.agent_fails
                            Scenarios.config Scenarios.broken_agent
                            "Find a vegetarian lasagna recipe" (JS.num 75) _
                            eq_refl eq_refl)
                         Scenarios.webvoyager_args _ _)); find_event.
  - refine (proj1 (proj1 (proj2 (agent_failure_propagates Scenarios.agent_fails
                                   Scenarios.config Scenarios.broken_agent
                                   "find price" (JS.num 80) _ eq_refl eq_refl))
                         Scenarios.mind2web_args _ _)); find_event.
  - refine (proj1 (proj2 (proj2 (agent_failure_propagates Scenarios.agent_fails
                                   Scenarios.config Scenarios.broken_agent
                                   "Who wrote Pride and Prejudice?" (JS.num 50) _
                                   eq_refl eq_refl))
                         Scenarios.gaia_args _ _)); find_event.
Defined.

(** X3.  [gaia] closes the session exactly once, as the last thing it
    does, however it ends; [webvoyager] and [onlineMind2Web] never close
    it. *)
Theorem only_gaia_closes_the_session :
  forall w : Eval.World,
    (forall a,
        last (Eval.trace_of (Tasks.gaia w a)) Eval.DateNow = Eval.Close
        /\ Observe.count Observe.is_close (Eval.trace_of (Tasks.gaia w a)) = 1)
    /\ (forall a, Observe.none Observe.is_close (Eval.trace_of (Tasks.webvoyager w a)))
    /\ (forall a, Observe.none Observe.is_close
                    (Eval.trace_of (Tasks.onlineMind2Web w a))).
Proof.
  intro w. split; [|split]; intro a.
  - apply gaia_closes_last.
  - apply webvoyager_never_closes.
  - apply onlineMind2Web_never_closes.
Qed.

(** X4.  In every run of a task the page is navigated, the agent
    created, the agent executed and the judge asked at most once each,
    and in that order: an agent is created only after the navigation,
    executed only after it was created, and the judge asked only after
    the agent was executed. *)
Theorem calls_happen_once_and_in_order :
  forall w : Eval.World,
    let ordered (t : Eval.Trace) :=
      (Observe.count Tasks.navigates t <= 1
       /\ Observe.count Observe.is_create t <= 1
       /\ Observe.count Tasks.is_execute t <= 1
       /\ Observe.count Observe.is_ask t <= 1)
      /\ Observe.happens_before Tasks.navigates Observe.is_create t
      /\ Observe.happens_before Observe.is_create Tasks.is_execute t
      /\ Observe.happens_before Tasks.is_execute Observe.is_ask t in
    (forall a, ordered (Eval.trace_of (Tasks.webvoyager w a)))
    /\ (forall a, ordered (Eval.trace_of (Tasks.onlineMind2Web w a)))
    /\ (forall a, ordered (Eval.trace_of (Tasks.gaia w a))).
Proof.
  intros w ordered. subst ordered. split; [|split]; intro a.
  - apply webvoyager_order.
  - apply onlineMind2Web_order.
  - apply gaia_order.
Qed.

(** X5.  A task returns a result with [_success: true] only when the
    judge was asked in that run and answered with the evaluation
    ["YES"]. *)
Theorem success_needs_a_yes :
  forall w : Eval.World,
    (forall a r,
        Eval.outcome_of (Tasks.webvoyager w a) = Eval.Normal r ->
        Tasks._success r = true ->
        exists req v,
          In (Eval.Ask req) (Eval.trace_of (Tasks.webvoyager w a))
          /\ Eval.evaluator_ask w req = Eval.Normal v
          /\ Eval.evaluation v = "YES"%string)
    /\ (forall a r,
          Eval.outcome_of (Tasks.onlineMind2Web w a) = Eval.Normal r ->
          Tasks._success r = true ->
          exists req v,
            In (Eval.Ask req) (Eval.trace_of (Tasks.onlineMind2Web w a))
            /\ Eval.evaluator_ask w req = Eval.Normal v
            /\ Eval.evaluation v = "YES"%string)
    /\ (forall a r,
          Eval.outcome_of (Tasks.gaia w a) = Eval.Normal r ->
          Tasks._success r = true ->
          exists req v,
            In (Eval.Ask req) (Eval.trace_of (Tasks.gaia w a))
            /\ Eval.evaluator_ask w req = Eval.Normal v
            /\ Eval.evaluation v = "YES"%string).
Proof.
  intro w. split; [|split]; intros a r.
  - apply webvoyager_success.
  - apply onlineMind2Web_success.
  - apply gaia_success.
Qed.

Lemma success_needs_a_yes_witness :
  exists r req v,
    Eval.outcome_of (Tasks.gaia Samples.world Scenarios.gaia_args) = Eval.Normal r
    /\ Tasks._success r = true
    /\ In (Eval.Ask req) (Eval.trace_of (Tasks.gaia Samples.world Scenarios.gaia_args))
    /\ Eval.evaluator_ask Samples.world req = Eval.Normal v
    /\ Eval.evaluation v = "YES"%string.
Proof.
  destruct (Eval.outcome_of (Tasks.gaia Samples.world Scenarios.gaia_args))
    as [r|e] eqn:E; [|discriminate E].
  assert (S : Tasks._success r = true) by (injection E as <-; reflexivity).
  destruct (proj2 (proj2 (success_needs_a_yes Samples.world))
              Scenarios.gaia_args r E S) as (req & v & H).
  exists r, req, v. tauto.
Defined.

(** X6.  What [webvoyager] and [onlineMind2Web] ask the judge: whether
    the task text of the dataset row was completed, with the frames the
    collector handed back and no answer, and with a reasoning that is
    the message of the result the agent of that run returned for that
    task text, or the fixed sentence ["no reasoning available, agent
    potentially hit step limit"] when that message is undefined or
    empty; so the reasoning is never empty. *)
Theorem judge_gets_task_frames_and_reasoning :
  forall (w : Eval.World) (req : Eval.AskRequest),
    (forall a,
        In (Eval.Ask req) (Eval.trace_of (Tasks.webvoyager w a)) ->
        exists ques cfg ag n result,
          Tasks.present (Tasks.field (Tasks.params_of a) Tasks.wv_ques) = Some ques
          /\ Eval.question req = Tasks.completed_question ques
          /\ Eval.screenshot req = Eval.Frames (Tasks.collected w)
          /\ Eval.answer req = None
          /\ In (Eval.CreateAgent cfg) (Eval.trace_of (Tasks.webvoyager w a))
          /\ Eval.stagehand_agent w cfg = Eval.Normal ag
          /\ In (Eval.Execute ques n) (Eval.trace_of (Tasks.webvoyager w a))
          /\ Eval.execute ag ques n = Eval.Normal result
          /\ (forall m,
                Eval.message result = Some m -> m <> ""%string ->
                Eval.agentReasoning req = Some m)
          /\ (Eval.message result = None \/ Eval.message result = Some ""%string ->
              Eval.agentReasoning req
              = Some "no reasoning available, agent potentially hit step limit"%string)
          /\ exists said, Eval.agentReasoning req = Some said /\ said <> ""%string)
    /\ (forall a,
          In (Eval.Ask req) (Eval.trace_of (Tasks.onlineMind2Web w a)) ->
          exists task cfg ag n result,
            Tasks.present (Tasks.field (Tasks.params_of a) Tasks.m2w_confirmed_task)
            = Some task
            /\ Eval.question req = Tasks.completed_question task
            /\ Eval.screenshot req = Eval.Frames (Tasks.collected w)
            /\ Eval.answer req = None
            /\ In (Eval.CreateAgent cfg) (Eval.trace_of (Tasks.onlineMind2Web w a))
            /\ Eval.stagehand_agent w cfg = Eval.Normal ag
            /\ In (Eval.Execute task n) (Eval.trace_of (Tasks.onlineMind2Web w a))
            /\ Eval.execute ag task n = Eval.Normal result
            /\ (forall m,
                  Eval.message result = Some m -> m <> ""%string ->
                  Eval.agentReasoning req = Some m)
            /\ (Eval.message result = None \/ Eval.message result = Some ""%string ->
                Eval.agentReasoning req
                = Some "no reasoning available, agent potentially hit step limit"%string)
            /\ exists said, Eval.agentReasoning req = Some said /\ said <> ""%string).
Proof.
  intros w req. split; intros a HIn.
  - destruct (webvoyager_request w a req HIn)
      as (q & cfg & ag & n & r & H1 & H2 & H3 & H4 & H5 & H6 & H7 & H8 & H9).
    exists q, cfg, ag, n, r. repeat (split; [assumption|]).
    split; [|split].
    + intros m Hm Hne. rewrite H9. f_equal.
      now apply (proj1 (or_str_cases _ _) m).
    + intro Hm. rewrite H9. f_equal. now apply (proj2 (or_str_cases _ _)).
    + eexists. split; [exact H9|]. now apply or_str_nonempty.
  - destruct (onlineMind2Web_request w a req HIn)
      as (q & cfg & ag & n & r & H1 & H2 & H3 & H4 & H5 & H6 & H7 & H8 & H9).
    exists q, cfg, ag, n, r. repeat (split; [assumption|]).
    split; [|split].
    + intros m Hm Hne. rewrite H9. f_equal.
      now apply (proj1 (or_str_cases _ _) m).
    + intro Hm. rewrite H9. f_equal. now apply (proj2 (or_str_cases _ _)).
    + eexists. split; [exact H9|]. now apply or_str_nonempty.
Qed.

Lemma judge_gets_task_frames_and_reasoning_witness :
  Eval.agentReasoning Samples.webvoyager_request = Some "Final Answer: 42"%string
  /\ Eval.agentReasoning Scenarios.silent_request
     = Some "no reasoning available, agent potentially hit step limit"%string.
Proof.
  split.
  - destruct (proj1 (judge_gets_task_frames_and_reasoning Samples.world
                       Samples.webvoyager_request)
                    Scenarios.webvoyager_args ltac:(find_event))
      as (q & cfg & ag & n & r & _ & _ & _ & _ & _ & Hag & _ & Hex & Hm & _).
    injection Hag as <-. injection Hex as <-.
    apply Hm; [reflexivity|discriminate].
  - destruct (proj2 (judge_gets_task_frames_and_reasoning Scenarios.agent_silent
                       Scenarios.silent_request)
                    Scenarios.mind2web_args ltac:(find_event))
      as (q & cfg & ag & n & r & _ & _ & _ & _ & _ & Hag & _ & Hex & _ & Hn & _).
    injection Hag as <-. injection Hex as <-.
    apply Hn. now left.
Defined.

(** X7.  [gaia] never touches the screenshot collector and asks the
    judge without screenshots and without reasoning, on the agent's
    answer alone; the question quotes the expected answer of the row,
    and the text [undefined] when the row has none. *)
Theorem gaia_asks_on_the_answer_alone :
  forall (w : Eval.World) (a : Tasks.TaskArgs Tasks.GaiaParams),
    Observe.none Observe.is_collector (Eval.trace_of (Tasks.gaia w a))
    /\ forall req,
        In (Eval.Ask req) (Eval.trace_of (Tasks.gaia w a)) ->
        Eval.screenshot req = Eval.NoScreenshot
        /\ Eval.agentReasoning req = None
        /\ (exists text, Eval.answer req = Some text)
        /\ (forall expected,
              Tasks.field (Tasks.params_of a) Tasks.gaia_expected = Some expected ->
              Eval.question req
              = ("Did the agent provide the expected answer: "
                 ++ Tasks.dquote ++ expected ++ Tasks.dquote ++ "?")%string)
        /\ (Tasks.field (Tasks.params_of a) Tasks.gaia_expected = None ->
            Eval.question req
            = ("Did the agent provide the expected answer: "
               ++ Tasks.dquote ++ "undefined" ++ Tasks.dquote ++ "?")%string).
Proof.
  intros w a. split; [apply gaia_no_collector|].
  intros req HIn. destruct (gaia_request w a req HIn) as (Hq & Hs & Hr & Ha).
  repeat split; try assumption.
  - intros expected E. rewrite Hq, E. reflexivity.
  - intros E. rewrite Hq, E. reflexivity.
Qed.

Lemma gaia_asks_on_the_answer_alone_witness :
  exists req,
    In (Eval.Ask req)
       (Eval.trace_of
          (Tasks.gaia Samples.world
             (Samples.args "computer-use-preview" (Some Scenarios.gaia_params_open))))
    /\ Eval.question req
       = ("Did the agent provide the expected answer: "
          ++ Tasks.dquote ++ "undefined" ++ Tasks.dquote ++ "?")%string.
Proof.
  exists {| Eval.question := Tasks.expected_question None;
            Eval.screenshot := Eval.NoScreenshot;
            Eval.agentReasoning := None;
            Eval.answer := Some "Final Answer: 42"%string |}.
  assert (HIn : In (Eval.Ask {| Eval.question := Tasks.expected_question None;
                               Eval.screenshot := Eval.NoScreenshot;
                               Eval.agentReasoning := None;
                               Eval.answer := Some "Final Answer: 42"%string |})
                  (Eval.trace_of
                     (Tasks.gaia Samples.world
                        (Samples.args "computer-use-preview"
                           (Some Scenarios.gaia_params_open)))))
    by find_event.
  split; [exact HIn|].
  exact (proj2 (proj2 (proj2 (proj2
           (proj2 (gaia_asks_on_the_answer_alone Samples.world _) _ HIn)))) eq_refl).
Defined.

(** X8.  A task navigates nowhere but to the page of its dataset row,
    with a timeout of 120000 ms, and gives the agent no instruction but
    the task text of the row. *)
Theorem tasks_navigate_and_instruct_from_the_row :
  forall w : Eval.World,
    (forall a,
        (forall url ms,
            In (Eval.Goto url ms) (Eval.trace_of (Tasks.webvoyager w a)) ->
            Tasks.present (Tasks.field (Tasks.params_of a) Tasks.wv_web) = Some url
            /\ ms = 120000%Z)
        /\ (forall i n,
              In (Eval.Execute i n) (Eval.trace_of (Tasks.webvoyager w a)) ->
              Tasks.present (Tasks.field (Tasks.params_of a) Tasks.wv_ques) = Some i))
    /\ (forall a,
          (forall url ms,
              In (Eval.Goto url ms) (Eval.trace_of (Tasks.onlineMind2Web w a)) ->
              Tasks.present (Tasks.field (Tasks.params_of a) Tasks.m2w_website)
              = Some url
              /\ ms = 120000%Z)
          /\ (forall i n,
                In (Eval.Execute i n) (Eval.trace_of (Tasks.onlineMind2Web w a)) ->
                Tasks.present (Tasks.field (Tasks.params_of a) Tasks.m2w_confirmed_task)
                = Some i))
    /\ (forall a,
          (forall url ms,
              In (Eval.Goto url ms) (Eval.trace_of (Tasks.gaia w a)) ->
              Tasks.present (Tasks.field (Tasks.params_of a) Tasks.gaia_web) = Some url
              /\ ms = 120000%Z)
          /\ (forall i n,
                In (Eval.Execute i n) (Eval.trace_of (Tasks.gaia w a)) ->
                Tasks.present (Tasks.field (Tasks.params_of a) Tasks.gaia_ques)
                = Some i)).
Proof.
  intro w. split; [|split]; intro a.
  - apply webvoyager_targets.
  - apply onlineMind2Web_targets.
  - apply gaia_targets.
Qed.

Lemma tasks_navigate_and_instruct_from_the_row_witness :
  Tasks.present (Tasks.field (Tasks.params_of Scenarios.webvoyager_args) Tasks.wv_web)
  = Some "https://www.allrecipes.com/"%string
  /\ Tasks.present (Tasks.field (Tasks.params_of Scenarios.mind2web_args)
                      Tasks.m2w_confirmed_task)
     = Some "find price"%string.
Proof.
  split.
  - refine (proj1 (proj1 (proj1 (tasks_navigate_and_instruct_from_the_row Samples.world)
                            Scenarios.webvoyager_args)
                         "https://www.allrecipes.com/"%string 120000%Z _)).
    find_event.
  - refine (proj2 (proj1 (proj2 (tasks_navigate_and_instruct_from_the_row Samples.world))
                         Scenarios.mind2web_args)
                  "find price"%string (JS.num 80) _).
    find_event.
Defined.

(** X9.  Once the judge has answered, [onlineMind2Web] returns a result
    unless the answer is a NO whose reasoning contains
    ["access denied"]: [_success] tells whether the evaluation is
    ["YES"], and the result carries the judge's reasoning, the level of
    the row and the number of frames collected.  So a YES is a success
    even when its reasoning mentions a denied access. *)
Theorem onlineMind2Web_returns_other_verdicts :
  forall (w : Eval.World) (a : Tasks.TaskArgs Tasks.Mind2WebParams)
         (req : Eval.AskRequest) (v : Eval.Verdict),
    In (Eval.Ask req) (Eval.trace_of (Tasks.onlineMind2Web w a)) ->
    Eval.evaluator_ask w req = Eval.Normal v ->
    JS.includes (Eval.reasoning v) "access denied" = false
    \/ Eval.evaluation v <> "NO"%string ->
    exists r,
      Eval.outcome_of (Tasks.onlineMind2Web w a) = Eval.Normal r
      /\ Tasks._success r = (Eval.evaluation v =? "YES")%string
      /\ Tasks.res_reasoning r = Some (Eval.reasoning v)
      /\ Tasks.task_level r = Tasks.field (Tasks.params_of a) Tasks.m2w_level
      /\ Tasks.screenshotCount r = Some (length (Tasks.collected w))
      /\ Tasks.error r = None.
Proof. intros w a req v. apply onlineMind2Web_returns_verdict. Qed.

Lemma onlineMind2Web_returns_other_verdicts_witness :
  exists r,
    Eval.outcome_of (Tasks.onlineMind2Web Samples.world Scenarios.mind2web_args)
    = Eval.Normal r
    /\ Tasks._success r = true
    /\ Tasks.task_level r = Some "easy"%string
    /\ Tasks.screenshotCount r = Some 2.
Proof.
  destruct (onlineMind2Web_returns_other_verdicts Samples.world Scenarios.mind2web_args
              Samples.mind2web_request Scenarios.yes
              ltac:(find_event) eq_refl (or_introl eq_refl))
    as (r & Ho & Hs & _ & Hl & Hc & _).
  exists r. repeat split; assumption.
Defined.

(** X10.  Once the judge has answered, [webvoyager] and [gaia] always
    return a result: [_success] tells whether the evaluation is exactly
    ["YES"], and the result carries the judge's reasoning and no error. *)
Theorem verdict_is_returned_as_given :
  forall (w : Eval.World) (req : Eval.AskRequest) (v : Eval.Verdict),
    Eval.evaluator_ask w req = Eval.Normal v ->
    (forall a,
        In (Eval.Ask req) (Eval.trace_of (Tasks.webvoyager w a)) ->
        exists r,
          Eval.outcome_of (Tasks.webvoyager w a) = Eval.Normal r
          /\ Tasks._success r = (Eval.evaluation v =? "YES")%string
          /\ Tasks.res_reasoning r = Some (Eval.reasoning v))
    /\ (forall a,
          In (Eval.Ask req) (Eval.trace_of (Tasks.gaia w a)) ->
          exists r,
            Eval.outcome_of (Tasks.gaia w a) = Eval.Normal r
            /\ Tasks._success r = (Eval.evaluation v =? "YES")%string
            /\ Tasks.res_reasoning r = Some (Eval.reasoning v)
            /\ Tasks.screenshotCount r = None
            /\ Tasks.error r = None).
Proof.
  intros w req v HJ. split; intros a HIn.
  - now apply (webvoyager_returns_verdict w a req v).
  - now apply (gaia_returns_verdict w a req v).
Qed.

Lemma verdict_is_returned_as_given_witness :
  (exists r,
      Eval.outcome_of (Tasks.webvoyager Samples.world Scenarios.webvoyager_args)
      = Eval.Normal r
      /\ Tasks._success r = true)
  /\ (exists r,
        Eval.outcome_of (Tasks.gaia Samples.judge_denied Scenarios.gaia_args)
        = Eval.Normal r
        /\ Tasks._success r = false).
Proof.
  split.
  - destruct (proj1 (verdict_is_returned_as_given Samples.world
                       Samples.webvoyager_request Scenarios.yes eq_refl)
                    Scenarios.webvoyager_args ltac:(find_event))
      as (r & Ho & Hs & _).
    exists r. split; assumption.
  - destruct (proj2 (verdict_is_returned_as_given Samples.judge_denied
                       Samples.gaia_request Samples.denied eq_refl)
                    Scenarios.gaia_args ltac:(find_event))
      as (r & Ho & Hs & _).
    exists r. split; assumption.
Defined.

(** X11.  The step budget a task passes to [agent.execute] is never
    [NaN] and never zero, whatever [AGENT_EVAL_MAX_STEPS] holds. *)
Theorem step_budget_is_never_falsy :
  forall (w : Eval.World) (i : string) (n : JS.number),
    (forall a, In (Eval.Execute i n) (Eval.trace_of (Tasks.webvoyager w a)) ->
               JS.truthy n = true)
    /\ (forall a, In (Eval.Execute i n) (Eval.trace_of (Tasks.onlineMind2Web w a)) ->
                  JS.truthy n = true)
    /\ (forall a, In (Eval.Execute i n) (Eval.trace_of (Tasks.gaia w a)) ->
                  JS.truthy n = true).
Proof.
  intros w i n. split; [|split]; intros a HIn.
  - rewrite (webvoyager_budget w a i n HIn). now apply maxSteps_or_truthy.
  - rewrite (onlineMind2Web_budget w a i n HIn). now apply maxSteps_or_truthy.
  - rewrite (gaia_budget w a i n HIn). now apply maxSteps_or_truthy.
Qed.

Lemma step_budget_is_never_falsy_witness :
  In (Eval.Execute "Find a vegetarian lasagna recipe" (JS.num 75))
     (Eval.trace_of (Tasks.webvoyager (Samples.budget "0") Scenarios.webvoyager_args))
  /\ JS.truthy (JS.num 75) = true.
Proof.
  assert (HIn : In (Eval.Execute "Find a vegetarian lasagna recipe" (JS.num 75))
                   (Eval.trace_of (Tasks.webvoyager (Samples.budget "0")
                                     Scenarios.webvoyager_args)))
    by find_event.
  split; [exact HIn|].
  exact (proj1 (step_budget_is_never_falsy (Samples.budget "0") _ _)
               Scenarios.webvoyager_args HIn).
Defined.

(** * Further properties of the test-case builder *)

Section MoreBuilderFacts.

Import Testcases.

Lemma taskCategories_first (config pre post : list TaskConfig) entry name :
  config = pre ++ entry :: post ->
  (forall t, In t pre -> cfg_name t <> name) ->
  cfg_name entry = name ->
  taskCategories config name = cfg_categories entry.
Proof.
  intros -> Hpre Hname. unfold taskCategories.
  induction pre as [|t pre IH]; cbn.
  - rewrite Hname, String.eqb_refl. reflexivity.
  - destruct (String.eqb_spec (cfg_name t) name) as [E|_].
    + exfalso. apply (Hpre t); [now left|exact E].
    + apply IH. intros t' Ht'. apply Hpre. now right.
Qed.

Lemma test_name_injective (a b : string) :
  ("agent/onlineMind2Web" ++ ":" ++ a = "agent/onlineMind2Web" ++ ":" ++ b)%string ->
  a = b.
Proof. cbn. intro H. now injection H. Qed.

End MoreBuilderFacts.

Section RowFacts.

Import Eval Tasks.

Variable w : World.

Lemma onlineMind2Web_starts_by_navigating (a : TaskArgs Mind2WebParams) web task :
  present (field (params_of a) m2w_website) = Some web ->
  present (field (params_of a) m2w_confirmed_task) = Some task ->
  firstn 2 (trace_of (onlineMind2Web w a)) = [DateNow; Goto web 120000].
Proof.
  intros Hw Hq. unfold trace_of, run, onlineMind2Web. unfold_monad.
  rewrite Hw, Hq. explore. all: reflexivity.
Qed.

End RowFacts.

(** X12.  Every test case the builder makes is named
    ["agent/onlineMind2Web"], tagged with its model and ["mind2web"],
    expected to succeed, and consistent: its metadata repeat the model
    of its input, which is one of the models asked for, and the task id,
    website and level of the row it was built from, which is one of the
    rows; its test name is the task name, a colon and the task id; and
    its categories are those configured for the task name. *)
Theorem built_testcases_are_consistent :
  forall (config : list Testcases.TaskConfig) (rows : list Testcases.Mind2WebRow)
         (models : list string) (tc : Testcases.Testcase),
    In tc (Testcases.buildTestcases config rows models) ->
    Testcases.name tc = "agent/onlineMind2Web"%string
    /\ Tasks.input_name (Testcases.input tc) = Testcases.name tc
    /\ Testcases.tags tc
       = [Tasks.input_modelName (Testcases.input tc); "mind2web"%string]
    /\ Testcases.expected tc = true
    /\ Testcases.model (Testcases.metadata tc)
       = Tasks.input_modelName (Testcases.input tc)
    /\ In (Tasks.input_modelName (Testcases.input tc)) models
    /\ Testcases.dataset (Testcases.metadata tc) = "onlineMind2Web"%string
    /\ Testcases.categories (Testcases.metadata tc)
       = Testcases.taskCategories config (Testcases.name tc)
    /\ exists row,
        In row rows
        /\ Testcases.row_of tc = Some row
        /\ Testcases.md_task_id (Testcases.metadata tc) = Testcases.task_id row
        /\ Testcases.md_website (Testcases.metadata tc) = Testcases.website row
        /\ Testcases.difficulty (Testcases.metadata tc) = Testcases.level row
        /\ Testcases.test (Testcases.metadata tc)
           = (Testcases.name tc ++ ":" ++ Testcases.task_id row)%string.
Proof.
  intros config rows models tc Hin.
  apply buildTestcases_In in Hin as (m & r & Hm & Hr & ->).
  repeat split; try reflexivity; try exact Hm.
  exists r. repeat split; try reflexivity; try exact Hr.
  apply row_of_testcase.
Qed.

Lemma built_testcases_are_consistent_witness :
  Testcases.tags (Testcases.testcase Samples.other_config "m1" Samples.row)
  = ["m1"; "mind2web"]%string.
Proof.
  exact (proj1 (proj2 (proj2
           (built_testcases_are_consistent Samples.other_config [Samples.row]
              ["m1"%string] (Testcases.testcase Samples.other_config "m1" Samples.row)
              (or_introl eq_refl))))).
Defined.

(** X13.  When [tasksConfig] has entries for the task name, the first of
    them decides: the categories of a test case are its categories, and
    the category is the first of these when that is a non-empty string,
    and ["agent"] when the entry has no category or an empty first
    one. *)
Theorem category_is_first_configured :
  forall (config pre post : list Testcases.TaskConfig) (entry : Testcases.TaskConfig)
         (rows : list Testcases.Mind2WebRow) (models : list string)
         (tc : Testcases.Testcase),
    In tc (Testcases.buildTestcases config rows models) ->
    config = pre ++ entry :: post ->
    (forall t, In t pre -> Testcases.cfg_name t <> Testcases.name tc) ->
    Testcases.cfg_name entry = Testcases.name tc ->
    Testcases.categories (Testcases.metadata tc) = Testcases.cfg_categories entry
    /\ (forall first rest,
          Testcases.cfg_categories entry = first :: rest ->
          first <> ""%string ->
          Testcases.category (Testcases.metadata tc) = first)
    /\ (Testcases.cfg_categories entry = []
        \/ hd_error (Testcases.cfg_categories entry) = Some ""%string ->
        Testcases.category (Testcases.metadata tc) = "agent"%string).
Proof.
  intros config pre post entry rows models tc Hin Hc Hpre Hname.
  apply buildTestcases_In in Hin as (m & r & _ & _ & ->).
  cbn [Testcases.testcase Testcases.metadata Testcases.category
       Testcases.categories Tasks.input_name Testcases.name] in *.
  rewrite (taskCategories_first config pre post entry _ Hc Hpre Hname).
  split; [reflexivity|]. split.
  - intros first rest -> Hne. cbn.
    destruct (String.eqb_spec first ""); [contradiction|reflexivity].
  - intros [->| H]; [reflexivity|].
    destruct (Testcases.cfg_categories entry) as [|c cs]; [reflexivity|].
    cbn in H. injection H as ->. reflexivity.
Qed.

Lemma category_is_first_configured_witness :
  Testcases.category
    (Testcases.metadata
       (Testcases.testcase Scenarios.layered_config "m1" Samples.row))
  = "external_agent_benchmarks"%string.
Proof.
  refine (proj1 (proj2
           (category_is_first_configured Scenarios.layered_config
              Samples.other_config [Scenarios.shadowed_entry]
              Scenarios.mind2web_entry [Samples.row] ["m1"%string]
              (Testcases.testcase Scenarios.layered_config "m1" Samples.row)
              (or_introl eq_refl) eq_refl _ eq_refl))
           "external_agent_benchmarks"%string ["agent"%string] eq_refl _).
  - intros t [<-|[]]; discriminate.
  - discriminate.
Defined.

(** X14.  The test name of a test case tells its row and not its model:
    two test cases of one build have the same test name exactly when
    they have the same task id. *)
Theorem test_name_identifies_the_row :
  forall (config : list Testcases.TaskConfig) (rows : list Testcases.Mind2WebRow)
         (models : list string) (tc1 tc2 : Testcases.Testcase),
    In tc1 (Testcases.buildTestcases config rows models) ->
    In tc2 (Testcases.buildTestcases config rows models) ->
    Testcases.test (Testcases.metadata tc1) = Testcases.test (Testcases.metadata tc2)
    <-> Testcases.md_task_id (Testcases.metadata tc1)
        = Testcases.md_task_id (Testcases.metadata tc2).
Proof.
  intros config rows models tc1 tc2 H1 H2.
  apply buildTestcases_In in H1 as (m1 & r1 & _ & _ & ->).
  apply buildTestcases_In in H2 as (m2 & r2 & _ & _ & ->).
  cbn [Testcases.testcase Testcases.metadata Testcases.test Testcases.md_task_id
       Tasks.input_name].
  split; [apply test_name_injective|intros ->; reflexivity].
Qed.

Lemma test_name_identifies_the_row_witness :
  Testcases.test
    (Testcases.metadata (Testcases.testcase Samples.other_config "m1" Samples.row))
  = Testcases.test
      (Testcases.metadata (Testcases.testcase Samples.other_config "m2" Samples.row)).
Proof.
  exact (proj2 (test_name_identifies_the_row Samples.other_config [Samples.row]
                  ["m1"; "m2"]%string
                  (Testcases.testcase Samples.other_config "m1" Samples.row)
                  (Testcases.testcase Samples.other_config "m2" Samples.row)
                  (or_introl eq_refl) (or_intror (or_introl eq_refl)))
               eq_refl).
Defined.

(** * Dataset rows *)

Section GuardFacts.

Import Dataset.

Lemma is_string_spec (v : option Json) :
  is_string v = true <-> exists s, v = Some (JString s).
Proof.
  split.
  - destruct v as [[| | |s| |]|]; try discriminate. now exists s.
  - intros (s & ->). reflexivity.
Qed.

Lemma lookup_insert (pre post : list (string * Json)) k v key :
  k <> key ->
  lookup (pre ++ (k, v) :: post) key = lookup (pre ++ post) key.
Proof.
  intro Hk. induction pre as [|[k' v'] pre IH]; cbn.
  - destruct (String.eqb_spec k key); [contradiction|reflexivity].
  - destruct (k' =? key)%string; [reflexivity|exact IH].
Qed.

End GuardFacts.

(** X15.  [isMind2WebRow] accepts a parsed value exactly when it is an
    object whose [task_id], [confirmed_task] and [website] are strings,
    whatever these strings are; [null], arrays, numbers, booleans and
    strings are turned down; and any other property of the object,
    wherever it stands, makes no difference. *)
Theorem isMind2WebRow_accepts_three_strings :
  (forall parsed,
      Dataset.isMind2WebRow parsed = true
      <-> exists fields t c s,
          parsed = Dataset.JObject fields
          /\ Dataset.lookup fields "task_id" = Some (Dataset.JString t)
          /\ Dataset.lookup fields "confirmed_task" = Some (Dataset.JString c)
          /\ Dataset.lookup fields "website" = Some (Dataset.JString s))
  /\ (forall pre post k v,
        k <> "task_id"%string -> k <> "confirmed_task"%string ->
        k <> "website"%string ->
        Dataset.isMind2WebRow (Dataset.JObject (pre ++ (k, v) :: post))
        = Dataset.isMind2WebRow (Dataset.JObject (pre ++ post))).
Proof.
  split.
  - intro parsed. split.
    + destruct parsed as [| | | | |fields]; try discriminate.
      cbn. intro H.
      apply andb_prop in H as [H Hs]. apply andb_prop in H as [Ht Hc].
      apply is_string_spec in Ht as (t & Ht), Hc as (c & Hc), Hs as (s & Hs).
      now exists fields, t, c, s.
    + intros (fields & t & c & s & -> & Ht & Hc & Hs).
      cbn. now rewrite Ht, Hc, Hs.
  - intros pre post k v H1 H2 H3. cbn.
    now rewrite !lookup_insert.
Qed.

Lemma isMind2WebRow_accepts_three_strings_witness :
  Dataset.isMind2WebRow Scenarios.parsed_row
  = Dataset.isMind2WebRow
      (Dataset.JObject
         [("task_id", Dataset.JString "t1");
          ("confirmed_task", Dataset.JString "find price");
          ("website", Dataset.JString "")]%string).
Proof.
  refine (proj2 isMind2WebRow_accepts_three_strings
            [("task_id", Dataset.JString "t1");
             ("confirmed_task", Dataset.JString "find price");
             ("website", Dataset.JString "")]%string
            [] "level"%string (Dataset.JString "easy") _ _ _); discriminate.
Defined.

(** X16.  What [onlineMind2Web] does with a test case of the builder.
    The row of the test case has strings for its website and task, and
    these may be empty: if one is, the task returns the failure for
    missing parameters without navigating or touching the agent;
    otherwise the first thing it does after reading the clock is to
    navigate to the website of the row. *)
Theorem built_testcase_runs_on_its_row :
  forall (w : Eval.World) (config : list Testcases.TaskConfig)
         (rows : list Testcases.Mind2WebRow) (models : list string)
         (tc : Testcases.Testcase) (a : Tasks.TaskArgs Tasks.Mind2WebParams),
    In tc (Testcases.buildTestcases config rows models) ->
    Tasks.input a = Some (Testcases.input tc) ->
    exists row,
      In row rows
      /\ Testcases.row_of tc = Some row
      /\ (Testcases.website row = ""%string \/ Testcases.confirmed_task row = ""%string ->
          Tasks.failure_result (Eval.outcome_of (Tasks.onlineMind2Web w a))
            ("Missing onlineMind2Web params (website, confirmed_task). Got: "
             ++ Eval.JSON_stringify w _ (Tasks.params_of a))%string
          /\ Tasks.leaves_page_and_agent_alone
               (Eval.trace_of (Tasks.onlineMind2Web w a)))
      /\ (Testcases.website row <> ""%string ->
          Testcases.confirmed_task row <> ""%string ->
          firstn 2 (Eval.trace_of (Tasks.onlineMind2Web w a))
          = [Eval.DateNow; Eval.Goto (Testcases.website row) 120000]).
Proof.
  intros w config rows models tc a Hin Ha.
  apply buildTestcases_In in Hin as (m & r & _ & Hr & ->).
  exists r. split; [exact Hr|]. split; [apply row_of_testcase|].
  assert (Hp : Tasks.params_of a
               = Tasks.input_params (Testcases.input (Testcases.testcase config m r)))
    by (unfold Tasks.params_of; now rewrite Ha).
  split.
  - intro Hempty.
    assert (Hm : Tasks.present (Tasks.field (Tasks.params_of a) Tasks.m2w_website) = None
                 \/ Tasks.present (Tasks.field (Tasks.params_of a)
                                     Tasks.m2w_confirmed_task) = None)
      by (rewrite Hp; cbn; destruct Hempty as [-> | ->]; [now left|now right]).
    unfold Eval.outcome_of, Eval.trace_of. rewrite (onlineMind2Web_missing w a Hm).
    split; [eexists; repeat split; reflexivity|repeat constructor].
  - intros Hw Hc.
    apply (onlineMind2Web_starts_by_navigating w a _ (Testcases.confirmed_task r)).
    + rewrite Hp. cbn. destruct (String.eqb_spec (Testcases.website r) "");
        [contradiction|reflexivity].
    + rewrite Hp. cbn. destruct (String.eqb_spec (Testcases.confirmed_task r) "");
        [contradiction|reflexivity].
Qed.

Lemma built_testcase_runs_on_its_row_witness :
  Tasks.failure_result
    (Eval.outcome_of
       (Tasks.onlineMind2Web Samples.world
          (Scenarios.args_of
             (Testcases.testcase Samples.other_config "computer-use-preview"
                Scenarios.blank_row))))
    "Missing onlineMind2Web params (website, confirmed_task). Got: {}"
  /\ firstn 2
       (Eval.trace_of
          (Tasks.onlineMind2Web Samples.world
             (Scenarios.args_of
                (Testcases.testcase Samples.other_config "computer-use-preview"
                   Samples.row))))
     = [Eval.DateNow; Eval.Goto "https://example.com" 120000].
Proof.
  split.
  - destruct (built_testcase_runs_on_its_row Samples.world Samples.other_config
                [Scenarios.blank_row] ["computer-use-preview"%string]
                (Testcases.testcase Samples.other_config "computer-use-preview"
                   Scenarios.blank_row)
                (Scenarios.args_of
                   (Testcases.testcase Samples.other_config "computer-use-preview"
                      Scenarios.blank_row))
                (or_introl eq_refl) eq_refl)
      as (row & _ & Hrow & Hmiss & _).
    injection Hrow as <-.
    exact (proj1 (Hmiss (or_introl eq_refl))).
  - destruct (built_testcase_runs_on_its_row Samples.world Samples.other_config
                [Samples.row] ["computer-use-preview"%string]
                (Testcases.testcase Samples.other_config "computer-use-preview"
                   Samples.row)
                (Scenarios.args_of
                   (Testcases.testcase Samples.other_config "computer-use-preview"
                      Samples.row))
                (or_introl eq_refl) eq_refl)
      as (row & _ & Hrow & _ & Hnav).
    injection Hrow as <-.
    apply Hnav; discriminate.
Defined.


(** * Initialising a session *)

Ltac unfold_init :=
  cbv beta iota zeta delta
    [Init.bind Init.call Init.ret Init.try_catch Init.run app].

Ltac explore_init := unfold_init; repeat (split_innermost; unfold_init).

Section InitFacts.

Import Init.

Lemma lookup_app (o1 o2 : Obj) key :
  lookup (o1 ++ o2) key
  = match lookup o2 key with
    | Some v => Some v
    | None => lookup o1 key
    end.
Proof.
  induction o1 as [|[k v] o1 IH]; cbn.
  - now destruct (lookup o2 key).
  - rewrite IH. destruct (lookup o2 key); reflexivity.
Qed.

Lemma lookup_spread (o : Obj) (src : option Obj) key :
  lookup (spread o src) key
  = match src with
    | Some fields =>
        match lookup fields key with
        | Some v => Some v
        | None => lookup o key
        end
    | None => lookup o key
    end.
Proof. destruct src; cbn; [apply lookup_app|reflexivity]. Qed.

Variable w : World.
Variable a : Args.

Lemma config_logger : get (config_of w a) "logger" = VHandle "logger.log".
Proof. unfold get, config_of. rewrite lookup_app. reflexivity. Qed.

Lemma config_overridden key v :
  override a key = Some v -> key <> "logger"%string ->
  get (config_of w a) key = v.
Proof.
  unfold override, get, config_of. intros Ho Hk.
  rewrite lookup_app. cbn [lookup].
  destruct (String.eqb_spec "logger" key) as [E|_]; [now subst|].
  rewrite lookup_spread.
  destruct (configOverrides a) as [o|]; [|discriminate Ho].
  now rewrite Ho.
Qed.

(** The configuration before [configOverrides] is spread. *)
Lemma config_not_overridden key :
  override a key = None -> key <> "logger"%string ->
  lookup (config_of w a) key
  = lookup
      (spread (BaseStagehandConfig w
               ++ [("modelClientOptions",
                    match modelClientOptions a with
                    | Some k => VObject [("apiKey", VString k)]
                    | None => VUndefined
                    end);
                   ("llmClient",
                    match llmClient a with
                    | Some h => VHandle h
                    | None => VUndefined
                    end)])
              (settle_override (domSettleTimeoutMs a))
       ++ [("actTimeoutMs", of_number (actTimeoutMs a));
           ("modelName", VString (modelName a));
           ("experimental", experimental w (configOverrides a));
           ("browserbaseSessionCreateParams", browserbaseSessionCreateParams w)])
      key.
Proof.
  unfold override, config_of. intros Ho Hk.
  rewrite lookup_app. cbn [lookup].
  destruct (String.eqb_spec "logger" key) as [E|_]; [now subst|].
  rewrite lookup_spread.
  assert (R : forall c, match configOverrides a with
                        | Some fields =>
                            match lookup fields key with
                            | Some v => Some v
                            | None => lookup c key
                            end
                        | None => lookup c key
                        end = lookup c key).
  { intro c. destruct (configOverrides a); [now rewrite Ho|reflexivity]. }
  rewrite R. cbn [spread app]. rewrite <- !app_assoc. reflexivity.
Qed.

End InitFacts.

(** X17.  In the configuration [initStagehand] builds, the logger is
    always the bound log function of the evaluation logger, and every
    other key that [configOverrides] has takes the value given there,
    whatever the arguments and the base configuration say. *)
Theorem overrides_win_except_for_the_logger :
  forall (w : Init.World) (a : Init.Args),
    Init.get (Init.config_of w a) "logger" = Init.VHandle "logger.log"
    /\ forall key v,
        Init.override a key = Some v ->
        key <> "logger"%string ->
        Init.get (Init.config_of w a) key = v.
Proof.
  intros w a. split; [apply config_logger|]. intros key v. apply config_overridden.
Qed.

Lemma overrides_win_except_for_the_logger_witness :
  Init.get (Init.config_of Init.sample_world Init.sample_args) "headless"
  = Init.VBool true.
Proof.
  refine (proj2 (overrides_win_except_for_the_logger Init.sample_world Init.sample_args)
            "headless"%string (Init.VBool true) eq_refl _).
  discriminate.
Defined.

(** X18.  Where [configOverrides] is silent: the model name is the
    argument, not the base default; [modelClientOptions] is the
    argument even when that is undefined, so the base options are never
    kept; and [domSettleTimeoutMs] is the argument only when that is a
    truthy number, the base 60000 staying for an absent one, zero or
    [NaN]. *)
Theorem arguments_replace_base_defaults :
  forall (w : Init.World) (a : Init.Args),
    (Init.override a "modelName" = None ->
     Init.get (Init.config_of w a) "modelName" = Init.VString (Init.modelName a))
    /\ (Init.override a "modelClientOptions" = None ->
        (Init.modelClientOptions a = None ->
         Init.get (Init.config_of w a) "modelClientOptions" = Init.VUndefined)
        /\ (forall key,
              Init.modelClientOptions a = Some key ->
              Init.get (Init.config_of w a) "modelClientOptions"
              = Init.VObject [("apiKey"%string, Init.VString key)]))
    /\ (Init.override a "domSettleTimeoutMs" = None ->
        (forall n,
            Init.domSettleTimeoutMs a = Some n -> JS.truthy n = true ->
            Init.get (Init.config_of w a) "domSettleTimeoutMs" = Init.VNumber n)
        /\ (Init.domSettleTimeoutMs a = None
            \/ (exists n, Init.domSettleTimeoutMs a = Some n /\ JS.truthy n = false) ->
            Init.get (Init.config_of w a) "domSettleTimeoutMs"
            = Init.VNumber (JS.num 60000))).
Proof.
  intros w a. split; [|split]; intro Ho; unfold Init.get;
    rewrite (config_not_overridden w a _ Ho) by discriminate.
  - rewrite lookup_app. reflexivity.
  - rewrite lookup_app. cbn [Init.lookup String.eqb Ascii.eqb Bool.eqb].
    rewrite lookup_spread.
    assert (S : forall c,
               match Init.settle_override (Init.domSettleTimeoutMs a) with
               | Some fields =>
                   match Init.lookup fields "modelClientOptions" with
                   | Some v => Some v
                   | None => Init.lookup c "modelClientOptions"
                   end
               | None => Init.lookup c "modelClientOptions"
               end = Init.lookup c "modelClientOptions").
    { intro c. unfold Init.settle_override.
      destruct (Init.domSettleTimeoutMs a) as [n|]; [|reflexivity].
      destruct (JS.truthy n); reflexivity. }
    rewrite S, lookup_app.
    split; [intros ->|intros key ->]; reflexivity.
  - rewrite lookup_app. cbn [Init.lookup String.eqb Ascii.eqb Bool.eqb].
    rewrite lookup_spread. unfold Init.settle_override. split.
    + intros n -> ->. reflexivity.
    + intros [->|(n & -> & ->)]; rewrite lookup_app; reflexivity.
Qed.

Lemma arguments_replace_base_defaults_witness :
  Init.get (Init.config_of Init.sample_world Init.sample_args) "modelName"
  = Init.VString "computer-use-preview"
  /\ Init.get (Init.config_of Init.sample_world Init.sample_args) "modelClientOptions"
     = Init.VUndefined
  /\ Init.get (Init.config_of Init.sample_world Init.sample_args) "domSettleTimeoutMs"
     = Init.VNumber (JS.num 60000).
Proof.
  pose proof (arguments_replace_base_defaults Init.sample_world Init.sample_args)
    as (Hm & Hc & Hd).
  split; [|split].
  - exact (Hm eq_refl).
  - exact (proj1 (Hc eq_refl) eq_refl).
  - exact (proj2 (Hd eq_refl)
             (or_intror (ex_intro _ (JS.num 0) (conj eq_refl eq_refl)))).
Defined.

(** X19.  The [experimental] flag of the configuration is the value
    [configOverrides] gives for it when it gives one, boolean or not,
    and otherwise the opposite of [USE_API === "true"]. *)
Theorem experimental_follows_override_or_api :
  forall (w : Init.World) (a : Init.Args),
    (forall v, Init.override a "experimental" = Some v ->
               Init.get (Init.config_of w a) "experimental" = v)
    /\ (Init.override a "experimental" = None ->
        (Init.process_env w "USE_API" = Some "true"%string ->
         Init.get (Init.config_of w a) "experimental" = Init.VBool false)
        /\ (Init.process_env w "USE_API" <> Some "true"%string ->
            Init.get (Init.config_of w a) "experimental" = Init.VBool true)).
Proof.
  intros w a. split.
  - intros v Ho. apply config_overridden; [exact Ho|discriminate].
  - intro Ho. unfold Init.get.
    rewrite (config_not_overridden w a _ Ho) by discriminate.
    rewrite lookup_app. cbn [Init.lookup String.eqb Ascii.eqb Bool.eqb].
    assert (E : Init.experimental w (Init.configOverrides a)
                = Init.VBool (negb (Init.useAPI w))).
    { unfold Init.experimental, Init.override, Init.get in *.
      destruct (Init.configOverrides a); [now rewrite Ho|reflexivity]. }
    rewrite E. unfold Init.useAPI. split.
    + intros ->. reflexivity.
    + intro Hne. destruct (Init.process_env w "USE_API") as [s|]; [|reflexivity].
      destruct (String.eqb_spec s "true"); [now subst|reflexivity].
Qed.

Lemma experimental_follows_override_or_api_witness :
  Init.get (Init.config_of Init.sample_world Init.sample_args) "experimental"
  = Init.VBool false.
Proof.
  exact (proj1 (proj2 (experimental_follows_override_or_api Init.sample_world
                         Init.sample_args) eq_refl) eq_refl).
Defined.

Section InitRunFacts.

Import Init.

Variable w : World.
Variable a : Args.

Lemma init_order :
  let t := fst (run (initStagehand w a)) in
  (Observe.count is_new t = 1 /\ Observe.count is_logger_init t <= 1
   /\ Observe.count is_init t <= 1 /\ Observe.count is_timeout t <= 1
   /\ Observe.count is_title t <= 1 /\ Observe.count is_create t <= 1)
  /\ Observe.happens_before is_new is_logger_init t
  /\ Observe.happens_before is_logger_init is_init t
  /\ Observe.happens_before is_init is_timeout t
  /\ Observe.happens_before is_timeout is_title t
  /\ Observe.happens_before is_timeout is_create t.
Proof.
  cbv zeta. unfold Observe.count, initStagehand. explore_init.
  all: cbn [fst]; split; [cbn; lia|];
    repeat split; apply precededb_sound; reflexivity.
Qed.

Lemma init_events :
  let t := fst (run (initStagehand w a)) in
  (forall c, In (NewStagehand c) t -> c = config_of w a)
  /\ (forall ms, In (SetDefaultNavigationTimeout ms) t -> ms = 60000%Z)
  /\ (In Title t ->
      Tasks.provider_of (modelToAgentProviderMap w) (modelName a) <> None)
  /\ (In (CreateAgent None) t ->
      Tasks.provider_of (modelToAgentProviderMap w) (modelName a) = None)
  /\ (forall model provider instructions,
        In (CreateAgent (Some (model, provider, instructions))) t ->
        model = modelName a
        /\ Tasks.provider_of (modelToAgentProviderMap w) (modelName a) = Some provider
        /\ exists title,
            page_title w = Eval.Normal title
            /\ instructions = agent_instructions title).
Proof.
  cbv zeta. unfold initStagehand. explore_init.
  all: cbn [fst]; split; [|split; [|split; [|split]]]; intros.
  all: match goal with H : In _ _ |- _ => in_trace H end.
  all: try reflexivity; try congruence.
  all: subst; repeat split; eexists; split; reflexivity.
Qed.


End InitRunFacts.

(** X20.  The calls of [initStagehand] and their order.  The session is
    constructed first, once, with the configuration built from the
    arguments; then and in this order, each at most once: the logger is
    attached, the session initialised, the navigation timeout set to
    60000 ms, and the agent created.  The page title is read only when
    [modelName in modelToAgentProviderMap] holds (for an entry of the
    registry, and for a name it inherits from [Object.prototype]), and
    then the agent is created for that model, what the registry has
    under that name and the instructions around that title; when the
    test fails the agent is created without configuration. *)
Theorem initStagehand_calls_in_order :
  forall (w : Init.World) (a : Init.Args),
    let t := fst (Init.run (Init.initStagehand w a)) in
    ((Observe.count Init.is_new t = 1
      /\ Observe.count Init.is_logger_init t <= 1
      /\ Observe.count Init.is_init t <= 1
      /\ Observe.count Init.is_timeout t <= 1
      /\ Observe.count Init.is_title t <= 1
      /\ Observe.count Init.is_create t <= 1)
     /\ Observe.happens_before Init.is_new Init.is_logger_init t
     /\ Observe.happens_before Init.is_logger_init Init.is_init t
     /\ Observe.happens_before Init.is_init Init.is_timeout t
     /\ Observe.happens_before Init.is_timeout Init.is_title t
     /\ Observe.happens_before Init.is_timeout Init.is_create t)
    /\ (forall c, In (Init.NewStagehand c) t -> c = Init.config_of w a)
    /\ (forall ms, In (Init.SetDefaultNavigationTimeout ms) t -> ms = 60000%Z)
    /\ (In Init.Title t ->
        Tasks.provider_of (Init.modelToAgentProviderMap w) (Init.modelName a) <> None)
    /\ (In (Init.CreateAgent None) t ->
        Tasks.provider_of (Init.modelToAgentProviderMap w) (Init.modelName a) = None)
    /\ (forall model provider instructions,
          In (Init.CreateAgent (Some (model, provider, instructions))) t ->
          model = Init.modelName a
          /\ Tasks.provider_of (Init.modelToAgentProviderMap w) (Init.modelName a)
             = Some provider
          /\ exists title,
              Init.page_title w = Eval.Normal title
              /\ instructions = Init.agent_instructions title).
Proof.
  intros w a t. subst t. split; [apply init_order|apply init_events].
Qed.

Lemma initStagehand_calls_in_order_witness :
  Tasks.provider_of (Init.modelToAgentProviderMap Init.sample_world)
    (Init.modelName Init.sample_args)
  = Some (Eval.Registered "openai")
  /\ Tasks.provider_of (Init.modelToAgentProviderMap Init.sample_world)
       (Init.modelName Init.inherited_args)
     = Some (Eval.Inherited "toString").
Proof.
  split.
  - pose proof (initStagehand_calls_in_order Init.sample_world Init.sample_args) as H.
    cbv zeta in H. destruct H as (_ & _ & _ & _ & _ & H).
    refine (proj1 (proj2 (H "computer-use-preview"%string (Eval.Registered "openai")
                            (Init.agent_instructions "about:blank") _))).
    vm_compute. repeat (first [left; reflexivity | right]).
  - pose proof (initStagehand_calls_in_order Init.sample_world Init.inherited_args)
      as H.
    cbv zeta in H. destruct H as (_ & _ & _ & _ & _ & H).
    refine (proj1 (proj2 (H "toString"%string (Eval.Inherited "toString")
                            (Init.agent_instructions "about:blank") _))).
    vm_compute. repeat (first [left; reflexivity | right]).
Defined.



(** * Where the errors of a task come from *)



Section ErrorFacts.

Import Eval Tasks Observe.

Variable w : World.




End ErrorFacts.


